(** * Pay-Bay marketplace: a shallow embedding of [src/app.py]

    The Flask views of [src/app.py] are embedded as computations in a small
    state-and-exception monad.  The state holds the relational store (the two
    tables declared by the models), the ORM session's unit of work, the upload
    directory, the browser session and the trace of calls made to the payment
    provider.  Library routines the program calls but does not define
    (float parsing, password hashing, file-name sanitising, number
    formatting) are the fields of the class [Lib]; what the outside world
    decides during one request (the clock, the salt, the payment provider's
    answer, whether a disk write succeeds) is the record [Env]. *)

From Stdlib Require Import ZArith Ascii String Floats.PrimFloat.
From stdpp Require Import base option list strings sorting gmap.

Local Open Scope Z_scope.
Local Open Scope string_scope.

(** ** Models (src/app.py, lines 29-47) *)

Module User.
Record t : Type := mk {
  id : Z;
  username : string;
  email : string;
  password : string;
  balance : float;
}.
End User.

Module Listing.
Record t : Type := mk {
  id : Z;
  title : string;
  description : string;
  price : float;
  game : string;
  image : option string;
  seller_id : Z;
  status : string;
  created_at : Z;
}.

(** [listing.status = s] on a loaded row. *)
Definition with_status (s : string) (l : t) : t :=
  mk (id l) (title l) (description l) (price l) (game l) (image l)
     (seller_id l) s (created_at l).
End Listing.

(** The committed content of the database. Rows are kept in insertion order. *)
Record Db : Type := mkDb {
  users : list User.t;
  listings : list Listing.t;
}.

(** ** Requests, responses, exceptions *)

Inductive Method : Set := GET | HEAD | POST.

Global Instance Method_eq_dec : EqDecision Method.
Proof. solve_decision. Defined.

Record FileStorage : Type := mkFile {
  filename : string;
  stream : string;
}.

(** [form], [files] and [args] are multi-dicts: indexing returns the first
    value stored under the key. *)
Record Request : Type := mkRequest {
  method : Method;
  form : list (string * string);
  files : list (string * FileStorage);
  args : list (string * string);
  data : string;
  host_url : string;
}.

Inductive Exn : Set :=
| BadRequestKeyError (key : string)   (* werkzeug, an HTTP 400 *)
| NotFound                            (* werkzeug, an HTTP 404 *)
| ValueError                          (* float() on a malformed literal *)
| IntegrityError                      (* a constraint rejected at flush *)
| OSError                             (* FileStorage.save *)
| ApiError (code : string).           (* raised by the yookassa client *)

Inductive Response : Type :=
| render_template (name : string) (context : option (list Listing.t))
| redirect (location : string).

(** What the browser gets: the view's response, the page Flask makes out of an
    HTTP exception, or the server error of an exception nothing catches. *)
Inductive Outcome : Type :=
| responded (r : Response)
| aborted (code : Z)
| unhandled (e : Exn).

(** ** The payment provider *)

Record PaymentRequest : Type := mkPaymentRequest {
  amount_value : string;
  amount_currency : string;
  confirmation_type : string;
  confirmation_return_url : string;
  capture : bool;
  payment_description : string;
  metadata_listing_id : Z;
}.

Record PaymentObject : Type := mkPayment {
  confirmation_url : string;
}.

(** ** Library routines and the environment of one request *)

Class Lib : Type := {
  (** [float(s)]: [None] stands for the [ValueError] of a malformed literal. *)
  py_float : string → option float;
  (** [f"{x:.2f}"] *)
  format_2f : float → string;
  (** [generate_password_hash(pw, method='pbkdf2:sha256')], by salt. *)
  generate_password_hash : string → string → string;
  (** [check_password_hash(stored, pw)] *)
  check_password_hash : string → string → bool;
  (** [werkzeug.utils.secure_filename] *)
  secure_filename : string → string;
  (** [str(dt.timestamp())] *)
  str_timestamp : Z → string;
  (** [flask_login.login_url(view, next_url=request.url)]: where an anonymous
      caller of a protected route is sent. *)
  login_url : string → Request → string;
}.

Record Env : Type := mkEnv {
  utcnow : Z;
  salt : string;
  (** The answer of [Payment.create(payload, idempotence_key)]: a payment
      object, or the error code with which the client raises. *)
  provider : PaymentRequest → string → string + PaymentObject;
  (** Whether writing the file at this path succeeds. *)
  writable : string → bool;
}.

(** ** State *)

Record Session : Type := mkSession {
  user_id : option Z;
  flashes : list string;
}.

(** Pending work of [db.session], flushed by [commit]. *)
Inductive Op : Type :=
| InsertUser (username email password : string)
| InsertListing (title description : string) (price : float) (game : string)
                (image : option string) (seller_id : Z)
| SetListingStatus (id : Z) (status : string).

Record State : Type := mkState {
  db : Db;
  uow : list Op;
  uploads : gmap string string;
  session : Session;
  payments : list (PaymentRequest * string);
}.

Definition set_db (d : Db) (s : State) : State :=
  mkState d (uow s) (uploads s) (session s) (payments s).
Definition set_uow (o : list Op) (s : State) : State :=
  mkState (db s) o (uploads s) (session s) (payments s).
Definition set_uploads (u : gmap string string) (s : State) : State :=
  mkState (db s) (uow s) u (session s) (payments s).
Definition set_session (c : Session) (s : State) : State :=
  mkState (db s) (uow s) (uploads s) c (payments s).
Definition set_payments (p : list (PaymentRequest * string)) (s : State) : State :=
  mkState (db s) (uow s) (uploads s) (session s) p.

(** ** The monad of views *)

Inductive Result (A : Type) : Type :=
| Ok (a : A)
| Raise (e : Exn).
Arguments Ok {A} a.
Arguments Raise {A} e.

Definition View (A : Type) : Type := State → Result A * State.

Global Instance View_ret : MRet View := λ A a s, (Ok a, s).
Global Instance View_bind : MBind View := λ A B f m s,
  match m s with
  | (Ok a, s') => f a s'
  | (Raise e, s') => (Raise e, s')
  end.

Definition raise {A : Type} (e : Exn) : View A := λ s, (Raise e, s).
Definition get_state : View State := λ s, (Ok s, s).
Definition modify (f : State → State) : View () := λ s, (Ok (), f s).

(** ** The store *)

Definition multidict_get {V : Type} (k : string) (d : list (string * V)) : option V :=
  snd <$> List.find (λ kv, bool_decide (fst kv = k)) d.

(** [request.form[k]] *)
Definition form_get (req : Request) (k : string) : View string :=
  match multidict_get k (form req) with
  | Some v => mret v
  | None => raise (BadRequestKeyError k)
  end.

(** [User.query.filter_by(username=u).first()] *)
Definition User_by_username (u : string) (d : Db) : option User.t :=
  List.find (λ r, bool_decide (User.username r = u)) (users d).

(** [User.query.get(i)] *)
Definition User_get (i : Z) (d : Db) : option User.t :=
  List.find (λ r, bool_decide (User.id r = i)) (users d).

(** [Listing.query.get(i)] *)
Definition Listing_get (i : Z) (d : Db) : option Listing.t :=
  List.find (λ r, bool_decide (Listing.id r = i)) (listings d).

(** [Listing.query.filter_by(status=s)] *)
Definition filter_by_status (s : string) (ls : list Listing.t) : list Listing.t :=
  filter (λ l, Listing.status l = s) ls.

(** [Listing.query.filter_by(seller_id=i)] *)
Definition filter_by_seller_id (i : Z) (ls : list Listing.t) : list Listing.t :=
  filter (λ l, Listing.seller_id l = i) ls.

(** The order of [Listing.created_at.desc()]. *)
Definition newer_first (a b : Listing.t) : Prop :=
  (Listing.created_at b ≤ Listing.created_at a)%Z.

Global Instance newer_first_dec : RelDecision newer_first.
Proof. intros a b. unfold newer_first. apply _. Defined.

Definition order_by_created_at_desc (ls : list Listing.t) : list Listing.t :=
  merge_sort newer_first ls.

(** The key a fresh row gets from the default store (SQLite, an integer
    primary key): one more than the largest key in the table. *)
Definition next_id (ids : list Z) : Z := foldr Z.max 0 ids + 1.

(** [UPDATE listing SET status = st WHERE id = i], on one row. *)
Definition update_status (i : Z) (st : string) (l : Listing.t) : Listing.t :=
  if bool_decide (Listing.id l = i) then Listing.with_status st l else l.

(** One statement of a flush, with the constraints of the schema: the two
    [unique=True] columns of [User]. The column defaults ([balance],
    [status], [created_at]) are filled in here. *)
Definition apply_op (now : Z) (d : Db) (o : Op) : Exn + Db :=
  match o with
  | InsertUser u e p =>
      if bool_decide (u ∈ User.username <$> users d) then inl IntegrityError
      else if bool_decide (e ∈ User.email <$> users d) then inl IntegrityError
      else inr (mkDb (users d ++ [User.mk (next_id (User.id <$> users d)) u e p 0%float])
                     (listings d))
  | InsertListing t ds p g im sid =>
      inr (mkDb (users d)
                (listings d ++
                   [Listing.mk (next_id (Listing.id <$> listings d)) t ds p g im sid
                               "active" now]))
  | SetListingStatus i st =>
      inr (mkDb (users d) (update_status i st <$> listings d))
  end.

Fixpoint flush (now : Z) (d : Db) (ops : list Op) : Exn + Db :=
  match ops with
  | [] => inr d
  | o :: ops' =>
      match apply_op now d o with
      | inl e => inl e
      | inr d' => flush now d' ops'
      end
  end.

(** [db.session.add(obj)] and attribute assignment on a loaded row only
    record work; nothing reaches the database before [commit]. *)
Definition db_session_add (o : Op) : View () :=
  modify (λ s, set_uow (uow s ++ [o]) s).

(** [db.session.commit()]: all pending statements in one transaction, which
    is rolled back as a whole when one of them is rejected. *)
Definition db_session_commit (env : Env) : View () := λ s,
  match flush (utcnow env) (db s) (uow s) with
  | inr d' => (Ok (), set_uow [] (set_db d' s))
  | inl e => (Raise e, set_uow [] s)
  end.

(** ** Session helpers (flask, flask_login) *)

Definition flash (msg : string) : View () :=
  modify (λ s, set_session (mkSession (user_id (session s)) (flashes (session s) ++ [msg])) s).

Definition login_user (u : User.t) : View () :=
  modify (λ s, set_session (mkSession (Some (User.id u)) (flashes (session s))) s).

Definition logout_user : View () :=
  modify (λ s, set_session (mkSession None (flashes (session s))) s).

(** [load_user] applied to the id kept in the session. *)
Definition load_user (i : Z) (d : Db) : option User.t := User_get i d.

Definition current_user (s : State) : option User.t :=
  i ← user_id (session s); load_user i (db s).

(** The routes declared by the [@app.route] decorators. *)
Definition routes : list (string * string) :=
  [("index", "/"); ("register", "/register"); ("login", "/login");
   ("logout", "/logout"); ("add_listing", "/add_listing");
   ("confirm_payment", "/confirm_payment"); ("profile", "/profile")].

Definition url_for (endpoint : string) : string :=
  default "" (multidict_get endpoint routes).

Definition url_for_external (req : Request) (endpoint : string) : string :=
  host_url req ++ url_for endpoint.

(** [Listing.query.get_or_404(i)] *)
Definition Listing_get_or_404 (i : Z) : View Listing.t :=
  s ← get_state;
  match Listing_get i (db s) with
  | Some l => mret l
  | None => raise NotFound
  end.

(** [Payment.create(payload, key)]: the call is recorded, then the provider
    answers with a payment object or the client raises. *)
Definition Payment_create (env : Env) (payload : PaymentRequest) (key : string)
  : View PaymentObject := λ s,
  let s' := set_payments (payments s ++ [(payload, key)]) s in
  match provider env payload key with
  | inr p => (Ok p, s')
  | inl code => (Raise (ApiError code), s')
  end.

(** [app.config['UPLOAD_FOLDER']] *)
Definition UPLOAD_FOLDER : string := "static/uploads".

(** [os.path.join(a, b)] for a relative [b]. *)
Definition path_join (a b : string) : string := a ++ "/" ++ b.

(** [image.save(path)]: an existing file of that name is overwritten. *)
Definition FileStorage_save (env : Env) (f : FileStorage) (path : string) : View () :=
  if writable env path
  then modify (λ s, set_uploads (<[path := stream f]> (uploads s)) s)
  else raise OSError.

(** Truth value of a [FileStorage]: that of its file name. *)
Definition FileStorage_bool (f : FileStorage) : bool :=
  negb (bool_decide (filename f = "")).

(** ** Routes (src/app.py, lines 53-151) *)

Section Views.
Context `{Lib}.

(** [@login_required]: an anonymous caller gets flask_login's notice and is
    sent to [login_manager.login_view]. *)
Definition login_required (req : Request) (view : User.t → View Response)
  : View Response :=
  s ← get_state;
  match current_user s with
  | Some u => view u
  | None =>
      flash "Please log in to access this page.";;
      mret (redirect (login_url "login" req))
  end.

(** [index], the [listActive()] of the specification. *)
Definition index : View Response :=
  s ← get_state;
  let ls := order_by_created_at_desc (filter_by_status "active" (listings (db s))) in
  mret (render_template "index.html" (Some ls)).

Definition register (env : Env) (req : Request) : View Response :=
  if bool_decide (method req = POST) then
    username ← form_get req "username";
    email ← form_get req "email";
    pw ← form_get req "password";
    let password := generate_password_hash (salt env) pw in
    s ← get_state;
    match User_by_username username (db s) with
    | Some _ =>
        flash "Username already exists";;
        mret (redirect (url_for "register"))
    | None =>
        db_session_add (InsertUser username email password);;
        db_session_commit env;;
        flash "Registered successfully!";;
        mret (redirect (url_for "login"))
    end
  else mret (render_template "register.html" None).

(** The [and] of line 79 does not read the password field when no user was
    found. The inner computation yields the early [return] if there is one. *)
Definition login (req : Request) : View Response :=
  early ←
    (if bool_decide (method req = POST) then
       username ← form_get req "username";
       s ← get_state;
       let user := User_by_username username (db s) in
       ok ← match user with
            | Some u =>
                pw ← form_get req "password";
                mret (check_password_hash (User.password u) pw)
            | None => mret false
            end;
       match user, ok with
       | Some u, true =>
           login_user u;;
           mret (Some (redirect (url_for "index")))
       | _, _ =>
           flash "Invalid credentials";;
           mret None
       end
     else mret None);
  match early with
  | Some r => mret r
  | None => mret (render_template "login.html" None)
  end.

Definition logout (req : Request) : View Response :=
  login_required req (λ _,
    logout_user;;
    mret (redirect (url_for "index"))).

Definition add_listing (env : Env) (req : Request) : View Response :=
  login_required req (λ current_user,
    if bool_decide (method req = POST) then
      title ← form_get req "title";
      description ← form_get req "description";
      price_str ← form_get req "price";
      price ← match py_float price_str with
              | Some p => mret p
              | None => raise ValueError
              end;
      game ← form_get req "game";
      let image := multidict_get "image" (files req) in
      filename ← match image with
                 | Some f =>
                     if FileStorage_bool f then
                       let filename := secure_filename (filename f) in
                       FileStorage_save env f (path_join UPLOAD_FOLDER filename);;
                       mret (Some filename)
                     else mret None
                 | None => mret None
                 end;
      db_session_add (InsertListing title description price game filename
                                    (User.id current_user));;
      db_session_commit env;;
      flash "Listing added!";;
      mret (redirect (url_for "index"))
    else mret (render_template "add_listing.html" None)).

(** The payload of lines 121-133. *)
Definition payment_payload (req : Request) (listing : Listing.t) (listing_id : Z)
  : PaymentRequest :=
  {| amount_value := format_2f (Listing.price listing);
     amount_currency := "RUB";
     confirmation_type := "redirect";
     confirmation_return_url := url_for_external req "confirm_payment";
     capture := true;
     payment_description := "Purchase: " ++ Listing.title listing;
     metadata_listing_id := listing_id |}.

Definition buy (env : Env) (req : Request) (listing_id : Z) : View Response :=
  login_required req (λ current_user,
    listing ← Listing_get_or_404 listing_id;
    if bool_decide (Listing.seller_id listing = User.id current_user) then
      flash "Cannot buy your own listing";;
      mret (redirect (url_for "index"))
    else
      let idempotence_key := str_timestamp (utcnow env) in
      payment ← Payment_create env (payment_payload req listing listing_id)
                               idempotence_key;
      db_session_add (SetListingStatus (Listing.id listing) "pending");;
      db_session_commit env;;
      mret (redirect (confirmation_url payment))).

Definition confirm_payment (req : Request) : View Response :=
  flash "Payment processed! Check your email for delivery.";;
  mret (redirect (url_for "index")).

Definition profile (req : Request) : View Response :=
  login_required req (λ current_user,
    s ← get_state;
    let user_listings := filter_by_seller_id (User.id current_user) (listings (db s)) in
    mret (render_template "profile.html" (Some user_listings))).

(** One request: the view runs on a fresh ORM session; Flask turns HTTP
    exceptions into their pages and lets the others through; the ORM session
    is dropped at teardown, and with it whatever was not committed. *)
Definition serve (view : View Response) (s : State) : Outcome * State :=
  match view (set_uow [] s) with
  | (Ok r, s') => (responded r, set_uow [] s')
  | (Raise (BadRequestKeyError _), s') => (aborted 400, set_uow [] s')
  | (Raise NotFound, s') => (aborted 404, set_uow [] s')
  | (Raise e, s') => (unhandled e, set_uow [] s')
  end.

(** The listings the home page shows. *)
Definition listActive (s : State) : list Listing.t :=
  match serve index s with
  | (responded (render_template _ (Some ls)), _) => ls
  | _ => []
  end.
End Views.

(** ** Notions used in the statements *)

(** The store after the [UPDATE] that [buy] commits. *)
Definition pending_db (i : Z) (d : Db) : Db :=
  mkDb (users d) (update_status i "pending" <$> listings d).

(** The upload [add_listing] stores: the 'image' part, when it has a file name. *)
Definition uploaded_image (req : Request) : option FileStorage :=
  match multidict_get "image" (files req) with
  | Some f => if FileStorage_bool f then Some f else None
  | None => None
  end.

(** The constraints of the schema: primary keys, and the two [unique=True]
    columns of [User]. *)
Record wf_db (d : Db) : Prop := mk_wf {
  wf_user_ids : NoDup (User.id <$> users d);
  wf_usernames : NoDup (User.username <$> users d);
  wf_emails : NoDup (User.email <$> users d);
  wf_listing_ids : NoDup (Listing.id <$> listings d);
}.

Section Derived.
Context `{Lib}.

Definition upload_path (f : FileStorage) : string :=
  path_join UPLOAD_FOLDER (secure_filename (filename f)).

(** The disk write of [add_listing], if there is one, goes through. *)
Definition upload_succeeds (env : Env) (req : Request) : Prop :=
  ∀ f, uploaded_image req = Some f → writable env (upload_path f) = true.

(** The row [add_listing] inserts. *)
Definition new_listing (env : Env) (req : Request) (d : Db) (u : User.t)
    (title description : string) (price : float) (game : string) : Listing.t :=
  Listing.mk (next_id (Listing.id <$> listings d)) title description price game
    (secure_filename ∘ filename <$> uploaded_image req) (User.id u)
    "active" (utcnow env).
End Derived.

(** ** A small instance of the library routines, for running the views

    Stand-ins that can be evaluated: [float] reads signed decimal integers
    only, the "hash" keeps the password after the salt, file names are
    taken as they are. *)
Module Sample.
Definition digit (c : ascii) : option float :=
  if bool_decide (c = "0"%char) then Some 0%float
  else if bool_decide (c = "1"%char) then Some 1%float
  else if bool_decide (c = "2"%char) then Some 2%float
  else if bool_decide (c = "3"%char) then Some 3%float
  else if bool_decide (c = "4"%char) then Some 4%float
  else if bool_decide (c = "5"%char) then Some 5%float
  else if bool_decide (c = "6"%char) then Some 6%float
  else if bool_decide (c = "7"%char) then Some 7%float
  else if bool_decide (c = "8"%char) then Some 8%float
  else if bool_decide (c = "9"%char) then Some 9%float
  else None.

Fixpoint digits (acc : float) (s : string) : option float :=
  match s with
  | EmptyString => Some acc
  | String c s' =>
      match digit c with
      | Some d => digits (acc * 10 + d)%float s'
      | None => None
      end
  end.

Definition float_of_string (s : string) : option float :=
  match s with
  | EmptyString => None
  | String "-" EmptyString => None
  | String "-" s' => PrimFloat.opp <$> digits 0%float s'
  | _ => digits 0%float s
  end.

Fixpoint after_dollar (s : string) : string :=
  match s with
  | EmptyString => EmptyString
  | String "$" s' => s'
  | String _ s' => after_dollar s'
  end.

Definition lib : Lib :=
  {| py_float := float_of_string;
     format_2f := λ x, if PrimFloat.ltb x 0%float then "-0.00" else "0.00";
     generate_password_hash := λ salt pw, salt ++ "$" ++ pw;
     check_password_hash := λ stored pw, bool_decide (after_dollar stored = pw);
     secure_filename := λ name, name;
     str_timestamp := λ t, if bool_decide (t < 0)%Z then "-" else "+";
     login_url := λ view _, "/" ++ view |}.

Definition alice : User.t := User.mk 1 "alice" "alice@example.org" "s1$wonderland" 0%float.
Definition bob : User.t := User.mk 2 "bob" "bob@example.org" "s2$builder" 0%float.
Definition carol : User.t := User.mk 3 "carol" "carol@example.org" "s3$singer" 0%float.

Definition sword (st : string) : Listing.t :=
  Listing.mk 1 "Sword" "A sharp one" 10%float "X" None 1 st 100.
Definition shield : Listing.t :=
  Listing.mk 2 "Shield" "Round" 5%float "X" None 2 "active" 200.

(** A store with three accounts and two listings; the first listing, sold
    by alice, has the given status. The caller is logged in as [who]. *)
Definition state (st : string) (who : option Z) : State :=
  {| db := mkDb [alice; bob; carol] [sword st; shield];
     uow := [];
     uploads := ∅;
     session := mkSession who [];
     payments := [] |}.

Definition checkout : PaymentObject := mkPayment "https://pay.example/checkout/1".

Definition env_ok : Env :=
  {| utcnow := 300; salt := "s9";
     provider := λ _ _, inr checkout;
     writable := λ _, true |}.

Definition env_down : Env :=
  {| utcnow := 300; salt := "s9";
     provider := λ _ _, inl "503";
     writable := λ _, true |}.

Definition post (fields : list (string * string)) : Request :=
  mkRequest POST fields [] [] "" "http://localhost:5000".
End Sample.

(** ** The URL map (the [@app.route] decorators) *)

(** The rule a request's path matches, with the value of its converter. *)
Inductive Rule : Set :=
| rule_index
| rule_register
| rule_login
| rule_logout
| rule_add_listing
| rule_buy (listing_id : Z)
| rule_confirm_payment
| rule_profile.

(** The [methods=] of a rule; Flask adds HEAD wherever GET is allowed. *)
Definition methods (r : Rule) : list Method :=
  match r with
  | rule_register | rule_login | rule_add_listing => [GET; HEAD; POST]
  | rule_buy _ => [POST]
  | rule_index | rule_logout | rule_confirm_payment | rule_profile => [GET; HEAD]
  end.

Section Dispatch.
Context `{Lib}.

Definition view_function (env : Env) (req : Request) (r : Rule) : View Response :=
  match r with
  | rule_index => index
  | rule_register => register env req
  | rule_login => login req
  | rule_logout => logout req
  | rule_add_listing => add_listing env req
  | rule_buy listing_id => buy env req listing_id
  | rule_confirm_payment => confirm_payment req
  | rule_profile => profile req
  end.

(** One request through the application: a method the rule does not list is
    answered with 405 before any view runs. *)
Definition dispatch (env : Env) (req : Request) (r : Rule) (s : State)
  : Outcome * State :=
  if bool_decide (method req ∈ methods r)
  then serve (view_function env req r) s
  else (aborted 405, s).

(** The statement a request commits, when it commits one. *)
Inductive commits (req : Request) (s : State) : Rule → Op → Prop :=
| commits_register (u e p : string) :
    commits req s rule_register (InsertUser u e p)
| commits_add_listing (u : User.t) (t d : string) (p : float) (g : string)
    (im : option string) :
    current_user s = Some u →
    commits req s rule_add_listing (InsertListing t d p g im (User.id u))
| commits_buy (u : User.t) (l : Listing.t) (i : Z) :
    current_user s = Some u →
    Listing_get i (db s) = Some l →
    Listing.seller_id l ≠ User.id u →
    commits req s (rule_buy i) (SetListingStatus i "pending").

(** [db.create_all()] on a new database (lines 153-157). *)
Definition create_all : Db := mkDb [] [].

(** The stores the application can be in: the empty tables, and what any
    request, from any browser, makes of a store it can be in. *)
Inductive reachable : Db → Prop :=
| reachable_create_all : reachable create_all
| reachable_dispatch (env : Env) (req : Request) (r : Rule) (s : State) :
    reachable (db s) → reachable (db (dispatch env req r s).2).
End Dispatch.

(** The statuses a listing is ever given. *)
Definition status_in_use (l : Listing.t) : Prop :=
  Listing.status l = "active" ∨ Listing.status l = "pending".

(** [seller_id] is the key of an account. *)
Definition seller_exists (d : Db) (l : Listing.t) : Prop :=
  Listing.seller_id l ∈ User.id <$> users d.

(** Two rows that differ in the status at most. *)
Definition same_but_status (l l' : Listing.t) : Prop :=
  l' = Listing.with_status (Listing.status l') l.

(** ** A run of the application on the sample routines

    alice registers on the empty tables, logs in and lists an axe. *)
Module Scenario.
Definition start : State :=
  {| db := create_all; uow := []; uploads := ∅;
     session := mkSession None []; payments := [] |}.

Definition registered : State :=
  (dispatch (H := Sample.lib) Sample.env_ok
     (Sample.post [("username", "alice"); ("email", "alice@example.org");
                   ("password", "wonderland")])
     rule_register start).2.

Definition logged_in : State :=
  (dispatch (H := Sample.lib) Sample.env_ok
     (Sample.post [("username", "alice"); ("password", "wonderland")])
     rule_login registered).2.

Definition axe_form : list (string * string) :=
  [("title", "Axe"); ("description", "Heavy"); ("price", "10"); ("game", "X")].

Definition listed : State :=
  (dispatch (H := Sample.lib) Sample.env_ok (Sample.post axe_form)
     rule_add_listing logged_in).2.

Definition axe : Listing.t :=
  Listing.mk 1 "Axe" "Heavy" 10%float "X" None 1 "active" 300.

(** The account alice's registration creates. *)
Definition alice : User.t :=
  User.mk 1 "alice" "alice@example.org" "s9$wonderland" 0%float.




Definition get : Request := mkRequest GET [] [] [] "" "http://localhost:5000".
End Scenario.

(** * Properties *)

(** ** Evaluation of the monad *)

Ltac run :=
  repeat (progress (
    cbv beta iota zeta delta
      [mbind mret View_bind View_ret get_state modify raise flash
       db_session_add login_user logout_user
       set_db set_uow set_uploads set_session set_payments] in *;
    cbn [db uow uploads session payments user_id flashes fst snd app] in * )).

(** [current_user] only reads the store and the session. *)
Ltac whoami s H :=
  change (current_user _) with (current_user s); rewrite H; run.

(** ** Queries *)

Global Instance newer_first_total : Total newer_first.
Proof. intros a b. unfold newer_first. lia. Qed.

Global Instance newer_first_trans : Transitive newer_first.
Proof. intros a b c. unfold newer_first. lia. Qed.

Lemma elem_of_filter_by_status (st : string) (ls : list Listing.t) (l : Listing.t) :
  l ∈ filter_by_status st ls ↔ l ∈ ls ∧ Listing.status l = st.
Proof. unfold filter_by_status. rewrite list_elem_of_filter. tauto. Qed.

Lemma Listing_get_Some (i : Z) (d : Db) (l : Listing.t) :
  Listing_get i d = Some l → l ∈ listings d ∧ Listing.id l = i.
Proof.
  unfold Listing_get. intros Hf. apply find_some in Hf as [Hin Hid].
  apply bool_decide_eq_true in Hid. by rewrite list_elem_of_In.
Qed.

Lemma update_status_id (i : Z) (st : string) (l : Listing.t) :
  Listing.id (update_status i st l) = Listing.id l.
Proof. unfold update_status. by case_bool_decide. Qed.

Lemma update_status_hit (i : Z) (st : string) (l : Listing.t) :
  Listing.id l = i → update_status i st l = Listing.with_status st l.
Proof. intros Hi. unfold update_status. by rewrite bool_decide_eq_true_2. Qed.

Lemma update_status_miss (i : Z) (st : string) (l : Listing.t) :
  Listing.id l ≠ i → update_status i st l = l.
Proof. intros Hi. unfold update_status. by rewrite bool_decide_eq_false_2. Qed.

Lemma with_status_same (l : Listing.t) : Listing.with_status (Listing.status l) l = l.
Proof. by destruct l. Qed.

(** Looking a row up by key commutes with a status update. *)
Lemma Listing_get_update_status (i j : Z) (st : string) (d : Db) :
  Listing_get j (mkDb (users d) (update_status i st <$> listings d)) =
  update_status i st <$> Listing_get j d.
Proof.
  unfold Listing_get. cbn [listings].
  induction (listings d) as [|l ls IH]; [done|].
  cbn [fmap list_fmap List.find]. rewrite update_status_id.
  case_bool_decide; [done|]. apply IH.
Qed.

Lemma elem_of_update_status (i : Z) (st : string) (ls : list Listing.t) (l' : Listing.t) :
  l' ∈ update_status i st <$> ls → Listing.id l' = i → Listing.status l' = st.
Proof.
  intros (l & -> & _)%list_elem_of_fmap Hi. rewrite update_status_id in Hi.
  by rewrite update_status_hit.
Qed.

Lemma elem_of_update_status_other (i : Z) (st : string) (ls : list Listing.t)
    (l' : Listing.t) :
  Listing.id l' ≠ i → l' ∈ update_status i st <$> ls ↔ l' ∈ ls.
Proof.
  intros Hi. rewrite list_elem_of_fmap. split.
  - intros (l & -> & Hl). rewrite update_status_id in Hi.
    by rewrite update_status_miss.
  - intros Hl. exists l'. by rewrite update_status_miss.
Qed.

Lemma User_by_username_Some (u : string) (d : Db) (a : User.t) :
  User_by_username u d = Some a → a ∈ users d ∧ User.username a = u.
Proof.
  unfold User_by_username. intros Hf. apply find_some in Hf as [Hin Hu].
  apply bool_decide_eq_true in Hu. by rewrite list_elem_of_In.
Qed.

Lemma User_by_username_is_Some (u : string) (d : Db) (a : User.t) :
  a ∈ users d → User.username a = u → is_Some (User_by_username u d).
Proof.
  intros Hin Hu. unfold User_by_username.
  destruct (List.find _ (users d)) as [b|] eqn:Hf; [by eexists|].
  apply list_elem_of_In in Hin. eapply find_none in Hf; [|exact Hin].
  cbn in Hf. by rewrite bool_decide_eq_true_2 in Hf.
Qed.

Lemma User_by_username_None (u : string) (d : Db) :
  User_by_username u d = None → u ∉ User.username <$> users d.
Proof.
  unfold User_by_username. intros Hf (a & -> & Ha%list_elem_of_In)%list_elem_of_fmap.
  eapply find_none in Hf; [|exact Ha]. cbn in Hf.
  by rewrite bool_decide_eq_true_2 in Hf.
Qed.

(** The [unique=True] of the email column at work. *)
Lemma flush_insert_user_dup_email (now : Z) (d : Db) (u e p : string) :
  e ∈ User.email <$> users d → flush now d [InsertUser u e p] = inl IntegrityError.
Proof.
  intros He. cbn [flush apply_op]. case_bool_decide; [done|].
  by rewrite bool_decide_eq_true_2.
Qed.

(** ** The constraints of the schema hold in every store a flush produces *)

Lemma next_id_above (ids : list Z) (i : Z) : i ∈ ids → i < next_id ids.
Proof.
  unfold next_id. induction ids as [|j ids IH]; [by intros ?%elem_of_nil|].
  intros [->|Hin]%elem_of_cons; cbn [foldr]; [lia|]. specialize (IH Hin). lia.
Qed.

Lemma next_id_fresh (ids : list Z) : next_id ids ∉ ids.
Proof. intros Hin%next_id_above. lia. Qed.

Lemma NoDup_snoc {A : Type} (l : list A) (x : A) : NoDup l → x ∉ l → NoDup (l ++ [x]).
Proof.
  intros Hl Hx. apply NoDup_app. split_and!; [done| |apply NoDup_singleton].
  intros y Hy ->%list_elem_of_singleton. done.
Qed.

Lemma update_status_ids (i : Z) (st : string) (ls : list Listing.t) :
  Listing.id <$> (update_status i st <$> ls) = Listing.id <$> ls.
Proof.
  rewrite <- list_fmap_compose. apply list_fmap_ext. intros _ l _. cbn.
  apply update_status_id.
Qed.

Lemma apply_op_wf (now : Z) (d d' : Db) (o : Op) :
  wf_db d → apply_op now d o = inr d' → wf_db d'.
Proof.
  intros [Hi Hu He Hl]. destruct o as [u e p|t ds p g im sid|i st]; cbn [apply_op].
  - case_bool_decide as Hdu; [done|]. case_bool_decide as Hde; [done|].
    intros [= <-].
    split; cbn [users listings]; rewrite ?fmap_app; cbn [fmap list_fmap];
      try done; apply NoDup_snoc; try done. apply next_id_fresh.
  - intros [= <-]. split; cbn [users listings]; try done.
    rewrite fmap_app. apply NoDup_snoc; [done|]. apply next_id_fresh.
  - intros [= <-]. split; cbn [users listings]; try done.
    by rewrite update_status_ids.
Qed.

Lemma flush_wf (now : Z) (ops : list Op) (d d' : Db) :
  wf_db d → flush now d ops = inr d' → wf_db d'.
Proof.
  revert d. induction ops as [|o ops IH]; intros d Hwf; cbn [flush].
  - by intros [= <-].
  - destruct (apply_op now d o) as [e|d1] eqn:Ho; [done|].
    apply IH. by eapply apply_op_wf.
Qed.

Section Properties.
Context `{Lib}.

(** ** The home page *)

Lemma serve_index (s : State) :
  serve index s =
    (responded (render_template "index.html"
       (Some (order_by_created_at_desc (filter_by_status "active" (listings (db s)))))),
     set_uow [] s).
Proof. reflexivity. Qed.

Lemma listActive_eq (s : State) :
  listActive s = order_by_created_at_desc (filter_by_status "active" (listings (db s))).
Proof. reflexivity. Qed.

Lemma elem_of_listActive (s : State) (l : Listing.t) :
  l ∈ listActive s ↔ l ∈ listings (db s) ∧ Listing.status l = "active".
Proof.
  rewrite listActive_eq. unfold order_by_created_at_desc.
  rewrite merge_sort_Permutation. apply elem_of_filter_by_status.
Qed.

(** C7. For every state of the store, the home page lists exactly the
    listings whose status is 'active': the result is a rearrangement of the
    active rows of the table, none of its rows is 'pending' or 'sold', it is
    ordered newest first by creation time, and it is as long as there are
    active rows, whatever their number. The store is left as it was. *)
Theorem index_lists_active_newest_first (s : State) :
  ∃ ls : list Listing.t,
    serve index s = (responded (render_template "index.html" (Some ls)), set_uow [] s)
    ∧ listActive s = ls
    ∧ ls ≡ₚ filter_by_status "active" (listings (db s))
    ∧ (∀ l, l ∈ ls ↔ l ∈ listings (db s) ∧ Listing.status l = "active")
    ∧ (∀ l, l ∈ ls → Listing.status l ≠ "pending" ∧ Listing.status l ≠ "sold")
    ∧ StronglySorted newer_first ls
    ∧ length ls = length (filter_by_status "active" (listings (db s))).
Proof.
  exists (listActive s). rewrite serve_index, listActive_eq.
  split_and!; try reflexivity.
  - apply merge_sort_Permutation.
  - intros l. rewrite <- listActive_eq. apply elem_of_listActive.
  - intros l Hl. rewrite <- listActive_eq in Hl.
    apply elem_of_listActive in Hl as [_ ->]. split; discriminate.
  - apply StronglySorted_merge_sort; apply _.
  - unfold order_by_created_at_desc. by rewrite merge_sort_Permutation.
Qed.

(** ** Purchase *)

Lemma serve_buy_paid env req s lid u l pay :
  current_user s = Some u →
  Listing_get lid (db s) = Some l →
  Listing.seller_id l ≠ User.id u →
  provider env (payment_payload req l lid) (str_timestamp (utcnow env)) = inr pay →
  serve (buy env req lid) s =
    (responded (redirect (confirmation_url pay)),
     mkState (pending_db lid (db s)) [] (uploads s) (session s)
       (payments s ++ [(payment_payload req l lid, str_timestamp (utcnow env))])).
Proof.
  intros Hu Hl Hne Hpay.
  destruct (Listing_get_Some _ _ _ Hl) as [_ Hid].
  unfold serve, buy, login_required, Listing_get_or_404, Payment_create,
    db_session_commit.
  run. whoami s Hu. rewrite Hl. run. rewrite bool_decide_eq_false_2 by done.
  run. rewrite Hpay. run. rewrite Hid. reflexivity.
Qed.

Lemma serve_buy_fault env req s lid u l code :
  current_user s = Some u →
  Listing_get lid (db s) = Some l →
  Listing.seller_id l ≠ User.id u →
  provider env (payment_payload req l lid) (str_timestamp (utcnow env)) = inl code →
  serve (buy env req lid) s =
    (unhandled (ApiError code),
     mkState (db s) [] (uploads s) (session s)
       (payments s ++ [(payment_payload req l lid, str_timestamp (utcnow env))])).
Proof.
  intros Hu Hl Hne Hpay.
  unfold serve, buy, login_required, Listing_get_or_404, Payment_create,
    db_session_commit.
  run. whoami s Hu. rewrite Hl. run. rewrite bool_decide_eq_false_2 by done.
  run. rewrite Hpay. reflexivity.
Qed.

Lemma serve_buy_own env req s lid u l :
  current_user s = Some u →
  Listing_get lid (db s) = Some l →
  Listing.seller_id l = User.id u →
  serve (buy env req lid) s =
    (responded (redirect (url_for "index")),
     mkState (db s) [] (uploads s)
       (mkSession (user_id (session s))
          (flashes (session s) ++ ["Cannot buy your own listing"]))
       (payments s)).
Proof.
  intros Hu Hl Heq.
  unfold serve, buy, login_required, Listing_get_or_404.
  run. whoami s Hu. rewrite Hl. run. rewrite bool_decide_eq_true_2 by done.
  reflexivity.
Qed.

Lemma buy_keeps_wf env req s lid :
  wf_db (db s) → wf_db (db (serve (buy env req lid) s).2).
Proof.
  intros Hwf.
  unfold serve, buy, login_required, Listing_get_or_404, Payment_create,
    db_session_commit.
  run. change (current_user _) with (current_user s).
  destruct (current_user s) as [u|]; run; [|done].
  destruct (Listing_get lid (db s)) as [l|]; run; [|done].
  case_bool_decide; run; [done|].
  destruct (provider env _ _); run; [done|].
  by apply (apply_op_wf (utcnow env) (db s) _
              (SetListingStatus (Listing.id l) "pending")).
Qed.

(** C1. When a logged-in user buys a listing that someone else sells and the
    provider answers with a payment, the caller is redirected to the
    provider's checkout page, the listing's row now has status 'pending'
    (its other columns, the other listings and the accounts are as before),
    and no row with that key is on the home page any more. *)
Theorem buy_marks_pending_and_unlists env req s lid u l pay :
  current_user s = Some u →
  Listing_get lid (db s) = Some l →
  Listing.seller_id l ≠ User.id u →
  provider env (payment_payload req l lid) (str_timestamp (utcnow env)) = inr pay →
  ∃ s' : State,
    serve (buy env req lid) s = (responded (redirect (confirmation_url pay)), s')
    ∧ Listing_get lid (db s') = Some (Listing.with_status "pending" l)
    ∧ (∀ l', l' ∈ listings (db s') → Listing.id l' = lid →
             Listing.status l' = "pending")
    ∧ (∀ l', l' ∈ listActive s' → Listing.id l' ≠ lid)
    ∧ (∀ l', Listing.id l' ≠ lid → l' ∈ listings (db s') ↔ l' ∈ listings (db s))
    ∧ users (db s') = users (db s).
Proof.
  intros Hu Hl Hne Hpay. eexists. split; [by eapply serve_buy_paid|].
  destruct (Listing_get_Some _ _ _ Hl) as [_ Hid].
  cbn [db]. unfold pending_db. split_and!.
  - rewrite Listing_get_update_status, Hl. cbn. by rewrite update_status_hit.
  - cbn [listings]. intros l'. apply elem_of_update_status.
  - intros l' [Hin Hst]%elem_of_listActive Hl'. cbn [db listings] in Hin.
    apply elem_of_update_status in Hin; [|done]. congruence.
  - cbn [listings]. intros l'. apply elem_of_update_status_other.
  - reflexivity.
Qed.

(** C2, as the code has it. When the provider call of [buy] raises, the
    fault is caught nowhere and reaches the server as an unhandled error;
    the call comes before the status is written, so the store is exactly as
    before: the listing keeps the status it had, and one that was 'active'
    is still on the home page. *)
Theorem buy_provider_fault_keeps_status env req s lid u l code :
  current_user s = Some u →
  Listing_get lid (db s) = Some l →
  Listing.seller_id l ≠ User.id u →
  provider env (payment_payload req l lid) (str_timestamp (utcnow env)) = inl code →
  ∃ s' : State,
    serve (buy env req lid) s = (unhandled (ApiError code), s')
    ∧ db s' = db s
    ∧ Listing_get lid (db s') = Some l
    ∧ (Listing.status l = "active" → l ∈ listActive s')
    ∧ payments s' =
        (payments s ++ [(payment_payload req l lid, str_timestamp (utcnow env))])%list.
Proof.
  intros Hu Hl Hne Hpay. eexists. split; [by eapply serve_buy_fault|].
  cbn [db payments]. split_and!; try done.
  intros Hst. apply elem_of_listActive. cbn [db].
  by destruct (Listing_get_Some _ _ _ Hl).
Qed.

(** C3, as the code has it. [buy] never looks at the status: on a listing
    that is already 'pending', a purchase by any logged-in user other than
    the seller goes through again when the provider answers. The provider
    is called, the caller is redirected to the checkout page, and the
    listing stays 'pending'. *)
Theorem buy_pending_listing_goes_through env req s lid u l pay :
  current_user s = Some u →
  Listing_get lid (db s) = Some l →
  Listing.status l = "pending" →
  Listing.seller_id l ≠ User.id u →
  provider env (payment_payload req l lid) (str_timestamp (utcnow env)) = inr pay →
  ∃ s' : State,
    serve (buy env req lid) s = (responded (redirect (confirmation_url pay)), s')
    ∧ payments s' =
        (payments s ++ [(payment_payload req l lid, str_timestamp (utcnow env))])%list
    ∧ Listing_get lid (db s') = Some l.
Proof.
  intros Hu Hl Hst Hne Hpay. eexists. split; [by eapply serve_buy_paid|].
  destruct (Listing_get_Some _ _ _ Hl) as [_ Hid].
  cbn [db payments]. split; [done|]. unfold pending_db.
  rewrite Listing_get_update_status, Hl. cbn.
  by rewrite update_status_hit, <- Hst, with_status_same.
Qed.

(** C4. When the logged-in caller is the seller of an 'active' listing,
    [buy] answers with the message 'Cannot buy your own listing' and a
    redirect home; the provider is not called, and the store is unchanged,
    so the listing is still 'active'. *)
Theorem buy_own_listing_refused env req s lid u l :
  current_user s = Some u →
  Listing_get lid (db s) = Some l →
  Listing.status l = "active" →
  Listing.seller_id l = User.id u →
  ∃ s' : State,
    serve (buy env req lid) s = (responded (redirect (url_for "index")), s')
    ∧ flashes (session s') =
        (flashes (session s) ++ ["Cannot buy your own listing"])%list
    ∧ payments s' = payments s
    ∧ db s' = db s
    ∧ uploads s' = uploads s
    ∧ Listing.status <$> Listing_get lid (db s') = Some "active".
Proof.
  intros Hu Hl Hst Heq. eexists. split; [by eapply serve_buy_own|].
  cbn [db payments session flashes uploads]. split_and!; try done.
  by rewrite Hl, <- Hst.
Qed.

(** ** The completion callback *)

(** C9. The payment completion callback changes nothing that is persisted,
    whatever the request carries: the database, the upload directory and the
    record of provider calls are as before, the caller stays who they were,
    and the only effect is the generic success message and the redirect
    home. Two requests that differ in every field get the same treatment. *)
Theorem confirm_payment_is_a_stub (s : State) (req req' : Request) :
  serve (confirm_payment req) s =
    (responded (redirect (url_for "index")),
     set_uow [] (set_session
       (mkSession (user_id (session s))
          (flashes (session s) ++ ["Payment processed! Check your email for delivery."]))
       s))
  ∧ db (serve (confirm_payment req) s).2 = db s
  ∧ listings (db (serve (confirm_payment req) s).2) = listings (db s)
  ∧ uploads (serve (confirm_payment req) s).2 = uploads s
  ∧ payments (serve (confirm_payment req) s).2 = payments s
  ∧ user_id (session (serve (confirm_payment req) s).2) = user_id (session s)
  ∧ serve (confirm_payment req') s = serve (confirm_payment req) s
  ∧ url_for "index" = "/".
Proof. split_and!; reflexivity. Qed.

(** ** Registration *)

Lemma serve_register_taken env req s u e pw a :
  method req = POST →
  multidict_get "username" (form req) = Some u →
  multidict_get "email" (form req) = Some e →
  multidict_get "password" (form req) = Some pw →
  User_by_username u (db s) = Some a →
  serve (register env req) s =
    (responded (redirect (url_for "register")),
     mkState (db s) [] (uploads s)
       (mkSession (user_id (session s))
          (flashes (session s) ++ ["Username already exists"]))
       (payments s)).
Proof.
  intros Hm Hu He Hp Ha. unfold serve, register, form_get.
  rewrite Hm, Hu, He, Hp. rewrite bool_decide_eq_true_2 by done.
  run. rewrite Ha. reflexivity.
Qed.

(** Whatever else the form holds, a taken user name keeps the store as it is. *)
Lemma register_taken_frame env req s u a :
  method req = POST →
  multidict_get "username" (form req) = Some u →
  User_by_username u (db s) = Some a →
  db (serve (register env req) s).2 = db s
  ∧ ((serve (register env req) s).1 = responded (redirect (url_for "register"))
     ∨ (serve (register env req) s).1 = aborted 400).
Proof.
  intros Hm Hu Ha. unfold serve, register, form_get. rewrite Hm, Hu.
  rewrite bool_decide_eq_true_2 by done. run.
  destruct (multidict_get "email" (form req)); run; [|by auto].
  destruct (multidict_get "password" (form req)); run; [|by auto].
  rewrite Ha. run. by auto.
Qed.

Lemma serve_register_dup_email env req s u e pw :
  method req = POST →
  multidict_get "username" (form req) = Some u →
  multidict_get "email" (form req) = Some e →
  multidict_get "password" (form req) = Some pw →
  User_by_username u (db s) = None →
  e ∈ User.email <$> users (db s) →
  serve (register env req) s =
    (unhandled IntegrityError,
     mkState (db s) [] (uploads s) (session s) (payments s)).
Proof.
  intros Hm Hu He Hp Hnone Hdup.
  unfold serve, register, form_get, db_session_commit.
  rewrite Hm, Hu, He, Hp. rewrite bool_decide_eq_true_2 by done.
  run. rewrite Hnone. run.
  rewrite flush_insert_user_dup_email by done. reflexivity.
Qed.

(** With the user name and the email both free, the account is created. *)
Lemma serve_register_created env req s u e pw :
  method req = POST →
  multidict_get "username" (form req) = Some u →
  multidict_get "email" (form req) = Some e →
  multidict_get "password" (form req) = Some pw →
  User_by_username u (db s) = None →
  e ∉ User.email <$> users (db s) →
  serve (register env req) s =
    (responded (redirect (url_for "login")),
     mkState
       (mkDb (users (db s) ++
                [User.mk (next_id (User.id <$> users (db s))) u e
                         (generate_password_hash (salt env) pw) 0%float])
             (listings (db s)))
       [] (uploads s)
       (mkSession (user_id (session s))
          (flashes (session s) ++ ["Registered successfully!"]))
       (payments s)).
Proof.
  intros Hm Hu He Hp Hnone Hfree.
  unfold serve, register, form_get, db_session_commit.
  rewrite Hm, Hu, He, Hp. rewrite bool_decide_eq_true_2 by done.
  run. rewrite Hnone. run. cbn [flush apply_op].
  rewrite bool_decide_eq_false_2 by by apply User_by_username_None.
  rewrite bool_decide_eq_false_2 by done. reflexivity.
Qed.

(** Registration never leaves two accounts with one email, one user name or
    one key, whatever the request. *)
Lemma register_keeps_wf env req s :
  wf_db (db s) → wf_db (db (serve (register env req) s).2).
Proof.
  intros Hwf. unfold serve, register, form_get, db_session_commit.
  case_bool_decide; run; [|done].
  destruct (multidict_get "username" (form req)); run; [|done].
  destruct (multidict_get "email" (form req)); run; [|done].
  destruct (multidict_get "password" (form req)); run; [|done].
  destruct (User_by_username _ (db s)); run; [done|].
  destruct (flush _ _ _) as [e|d'] eqn:Hf; run.
  - by destruct e.
  - by eapply flush_wf.
Qed.

(** C5, as the code has it. The email column is declared unique: a
    registration whose user name is free but whose email is that of an
    existing account does not go through. The insert is rejected at commit
    with an integrity error that nothing catches, no account row is added,
    and no success message is shown. *)
Theorem register_duplicate_email_rejected env req s u e pw a :
  method req = POST →
  multidict_get "username" (form req) = Some u →
  multidict_get "email" (form req) = Some e →
  multidict_get "password" (form req) = Some pw →
  User_by_username u (db s) = None →
  a ∈ users (db s) →
  User.email a = e →
  ∃ s' : State,
    serve (register env req) s = (unhandled IntegrityError, s')
    ∧ db s' = db s
    ∧ users (db s') = users (db s)
    ∧ session s' = session s.
Proof.
  intros Hm Hu He Hp Hnone Ha Hmail. eexists. split.
  - eapply serve_register_dup_email; try done.
    apply list_elem_of_fmap. by exists a.
  - done.
Qed.

(** C6. When an account with the user name exists, a registration under
    that name is turned away: the store is exactly as before, so no account
    row is created and the first account is still there and is still what a
    query by that name finds. With the other two fields filled in, the
    caller gets the message 'Username already exists' and is sent back to
    the registration page; with one missing, the request is a bad request. *)
Theorem register_duplicate_username_rejected env req s u a :
  method req = POST →
  multidict_get "username" (form req) = Some u →
  a ∈ users (db s) →
  User.username a = u →
  ∃ (out : Outcome) (s' : State),
    serve (register env req) s = (out, s')
    ∧ db s' = db s
    ∧ a ∈ users (db s')
    ∧ User_by_username u (db s') = User_by_username u (db s)
    ∧ is_Some (User_by_username u (db s'))
    ∧ (out = responded (redirect (url_for "register")) ∨ out = aborted 400)
    ∧ (is_Some (multidict_get "email" (form req)) →
       is_Some (multidict_get "password" (form req)) →
       out = responded (redirect (url_for "register"))
       ∧ flashes (session s') =
           (flashes (session s) ++ ["Username already exists"])%list).
Proof.
  intros Hm Hu Ha Hname.
  destruct (User_by_username_is_Some u (db s) a Ha Hname) as [b Hb].
  destruct (register_taken_frame env req s u b Hm Hu Hb) as [Hdb Hout].
  exists (serve (register env req) s).1, (serve (register env req) s).2.
  split; [by destruct (serve (register env req) s)|].
  rewrite Hdb. split_and!; try done.
  intros [e He] [pw Hp].
  by rewrite (serve_register_taken env req s u e pw b).
Qed.

(** ** Login *)

Lemma serve_login_wrong_password req s u a pw :
  method req = POST →
  multidict_get "username" (form req) = Some u →
  User_by_username u (db s) = Some a →
  multidict_get "password" (form req) = Some pw →
  check_password_hash (User.password a) pw = false →
  serve (login req) s =
    (responded (render_template "login.html" None),
     mkState (db s) [] (uploads s)
       (mkSession (user_id (session s)) (flashes (session s) ++ ["Invalid credentials"]))
       (payments s)).
Proof.
  intros Hm Hu Ha Hp Hck. unfold serve, login, form_get.
  rewrite Hm, Hu. rewrite bool_decide_eq_true_2 by done.
  run. rewrite Ha, Hp. run. rewrite Hck. reflexivity.
Qed.

Lemma serve_login_unknown_user req s u :
  method req = POST →
  multidict_get "username" (form req) = Some u →
  User_by_username u (db s) = None →
  serve (login req) s =
    (responded (render_template "login.html" None),
     mkState (db s) [] (uploads s)
       (mkSession (user_id (session s)) (flashes (session s) ++ ["Invalid credentials"]))
       (payments s)).
Proof.
  intros Hm Hu Ha. unfold serve, login, form_get.
  rewrite Hm, Hu. rewrite bool_decide_eq_true_2 by done.
  run. rewrite Ha. reflexivity.
Qed.

(** C8. A login with the name of an existing account and a password that
    does not match, and a login with a name no account has, get the same
    answer: the login page again with the message 'Invalid credentials'.
    Neither run calls [login_user]: the caller recorded in the session is
    who it was before (nobody, if nobody was logged in), and the store is
    untouched. From the same state the two runs end in the same state. *)
Theorem login_failures_look_alike req1 req2 s1 s2 u1 a pw u2 :
  method req1 = POST →
  multidict_get "username" (form req1) = Some u1 →
  User_by_username u1 (db s1) = Some a →
  multidict_get "password" (form req1) = Some pw →
  check_password_hash (User.password a) pw = false →
  method req2 = POST →
  multidict_get "username" (form req2) = Some u2 →
  User_by_username u2 (db s2) = None →
  (serve (login req1) s1).1 = responded (render_template "login.html" None)
  ∧ (serve (login req2) s2).1 = (serve (login req1) s1).1
  ∧ flashes (session (serve (login req1) s1).2) =
      (flashes (session s1) ++ ["Invalid credentials"])%list
  ∧ flashes (session (serve (login req2) s2).2) =
      (flashes (session s2) ++ ["Invalid credentials"])%list
  ∧ user_id (session (serve (login req1) s1).2) = user_id (session s1)
  ∧ user_id (session (serve (login req2) s2).2) = user_id (session s2)
  ∧ db (serve (login req1) s1).2 = db s1
  ∧ db (serve (login req2) s2).2 = db s2
  ∧ (s1 = s2 → serve (login req1) s1 = serve (login req2) s2).
Proof.
  intros Hm1 Hu1 Ha Hp Hck Hm2 Hu2 Hnone.
  rewrite (serve_login_wrong_password req1 s1 u1 a pw) by done.
  rewrite (serve_login_unknown_user req2 s2 u2) by done.
  split_and!; try done. by intros ->.
Qed.

(** ** Listing creation *)

Lemma serve_add_listing_bad_price env req s u t d ps :
  current_user s = Some u →
  method req = POST →
  multidict_get "title" (form req) = Some t →
  multidict_get "description" (form req) = Some d →
  multidict_get "price" (form req) = Some ps →
  py_float ps = None →
  serve (add_listing env req) s =
    (unhandled ValueError, mkState (db s) [] (uploads s) (session s) (payments s)).
Proof.
  intros Hu Hm Ht Hd Hp Hf. unfold serve, add_listing, login_required, form_get.
  run. whoami s Hu. rewrite Hm, bool_decide_eq_true_2 by done.
  rewrite Ht, Hd, Hp. run. rewrite Hf. reflexivity.
Qed.

(** No request whose price does not parse reaches the store or the disk. *)
Lemma add_listing_bad_price_frame env req s ps :
  multidict_get "price" (form req) = Some ps →
  py_float ps = None →
  db (serve (add_listing env req) s).2 = db s
  ∧ uploads (serve (add_listing env req) s).2 = uploads s.
Proof.
  intros Hp Hf. unfold serve, add_listing, login_required, form_get.
  run. change (current_user _) with (current_user s).
  destruct (current_user s) as [u|]; run; [|done].
  case_bool_decide; run; [|done].
  destruct (multidict_get "title" (form req)); run; [|done].
  destruct (multidict_get "description" (form req)); run; [|done].
  rewrite Hp. run. rewrite Hf. done.
Qed.

Lemma serve_add_listing_created env req s u t d ps p g :
  current_user s = Some u →
  method req = POST →
  multidict_get "title" (form req) = Some t →
  multidict_get "description" (form req) = Some d →
  multidict_get "price" (form req) = Some ps →
  py_float ps = Some p →
  multidict_get "game" (form req) = Some g →
  upload_succeeds env req →
  ∃ files' : gmap string string,
    serve (add_listing env req) s =
      (responded (redirect (url_for "index")),
       mkState (mkDb (users (db s))
                  (listings (db s) ++ [new_listing env req (db s) u t d p g]))
         [] files'
         (mkSession (user_id (session s)) (flashes (session s) ++ ["Listing added!"]))
         (payments s)).
Proof.
  intros Hu Hm Ht Hd Hp Hf Hg Hup.
  unfold serve, add_listing, login_required, form_get, db_session_commit, new_listing.
  run. whoami s Hu. rewrite Hm, bool_decide_eq_true_2 by done.
  rewrite Ht, Hd, Hp. run. rewrite Hf. run. rewrite Hg. run.
  unfold upload_succeeds, uploaded_image in *.
  destruct (multidict_get "image" (files req)) as [f|]; [|by eexists].
  destruct (FileStorage_bool f); [|by eexists].
  unfold FileStorage_save. fold (upload_path f). rewrite (Hup f eq_refl). run.
  by eexists.
Qed.

Lemma add_listing_keeps_wf env req s :
  wf_db (db s) → wf_db (db (serve (add_listing env req) s).2).
Proof.
  intros Hwf.
  unfold serve, add_listing, login_required, form_get, db_session_commit,
    FileStorage_save.
  run. change (current_user _) with (current_user s).
  destruct (current_user s) as [u|]; run; [|done].
  case_bool_decide; run; [|done].
  destruct (multidict_get "title" (form req)) as [t|]; run; [|done].
  destruct (multidict_get "description" (form req)) as [ds|]; run; [|done].
  destruct (multidict_get "price" (form req)) as [ps|]; run; [|done].
  destruct (py_float ps) as [p|]; run; [|done].
  destruct (multidict_get "game" (form req)) as [g|]; run; [|done].
  assert (∀ im, wf_db (mkDb (users (db s))
            (listings (db s) ++
               [Listing.mk (next_id (Listing.id <$> listings (db s))) t ds p g im
                  (User.id u) "active" (utcnow env)]))) as Hnew.
  { intros im.
    by apply (apply_op_wf (utcnow env) (db s) _
                (InsertListing t ds p g im (User.id u))). }
  destruct (multidict_get "image" (files req)) as [img|]; [|apply Hnew].
  destruct (FileStorage_bool img); [|apply Hnew].
  destruct (writable env _); run; [apply Hnew|done].
Qed.

(** C10. In [add_listing], for a logged-in caller posting a form with a
    title, a description and a price field: when the price does not parse as
    a number, the request ends in an unhandled [ValueError] and neither the
    store nor the upload directory has changed, so no listing row exists
    that did not before; when it parses to a negative number (and the game
    field is there and the upload, if any, can be written), nothing objects:
    the caller is redirected home and the table has one more row, whose
    price is that negative number. *)
Theorem add_listing_price_unvalidated env req s u t d ps :
  current_user s = Some u →
  method req = POST →
  multidict_get "title" (form req) = Some t →
  multidict_get "description" (form req) = Some d →
  multidict_get "price" (form req) = Some ps →
  (py_float ps = None →
     ∃ s' : State,
       serve (add_listing env req) s = (unhandled ValueError, s')
       ∧ db s' = db s
       ∧ listings (db s') = listings (db s)
       ∧ uploads s' = uploads s)
  ∧ (∀ (p : float) (g : string),
       py_float ps = Some p →
       PrimFloat.ltb p 0%float = true →
       multidict_get "game" (form req) = Some g →
       upload_succeeds env req →
       ∃ (s' : State) (row : Listing.t),
         serve (add_listing env req) s = (responded (redirect (url_for "index")), s')
         ∧ listings (db s') = (listings (db s) ++ [row])%list
         ∧ row = new_listing env req (db s) u t d p g
         ∧ Listing.price row = p
         ∧ PrimFloat.ltb (Listing.price row) 0%float = true
         ∧ Listing.seller_id row = User.id u
         ∧ Listing.status row = "active"
         ∧ row ∈ listActive s').
Proof.
  intros Hu Hm Ht Hd Hp. split.
  - intros Hf. eexists. split; [by eapply serve_add_listing_bad_price|]. done.
  - intros p g Hf Hneg Hg Hup.
    destruct (serve_add_listing_created env req s u t d ps p g) as [files' Hs];
      try done.
    eexists _, _. split; [exact Hs|]. cbn [db listings].
    split_and!; try done.
    apply elem_of_listActive. cbn [db listings]. split; [|done].
    apply elem_of_app. right. apply list_elem_of_singleton. done.
Qed.
End Properties.

(** * Further properties of the routes *)

Lemma current_user_Some (s : State) (u : User.t) :
  current_user s = Some u → u ∈ users (db s) ∧ user_id (session s) = Some (User.id u).
Proof.
  unfold current_user, load_user, User_get.
  destruct (user_id (session s)) as [i|]; [|done]. cbn.
  intros [Hin Hid%bool_decide_eq_true]%find_some. rewrite list_elem_of_In.
  by rewrite Hid.
Qed.

Lemma User_get_unique (d : Db) (a : User.t) :
  NoDup (User.id <$> users d) → a ∈ users d → User_get (User.id a) d = Some a.
Proof.
  unfold User_get. induction (users d) as [|b us IH]; [by intros _ ?%elem_of_nil|].
  rewrite fmap_cons, NoDup_cons. intros [Hb Hus] Ha. cbn [List.find].
  case_bool_decide as Hid.
  - apply elem_of_cons in Ha as [->|Ha]; [done|].
    exfalso. apply Hb. rewrite Hid. apply list_elem_of_fmap. by exists a.
  - apply elem_of_cons in Ha as [->|Ha]; [done|]. by apply IH.
Qed.

Lemma find_snoc_last {A : Type} (f : A → bool) (l : list A) (x : A) :
  List.find f l = None → f x = true → List.find f (l ++ [x]) = Some x.
Proof.
  induction l as [|y l IH]; cbn [List.find app]; [by intros _ ->|].
  destruct (f y); [done|]. apply IH.
Qed.


Lemma flush_one (now : Z) (d : Db) (o : Op) : flush now d [o] = apply_op now d o.
Proof. cbn [flush]. by destruct (apply_op now d o). Qed.

Lemma update_status_seller_id (i : Z) (st : string) (l : Listing.t) :
  Listing.seller_id (update_status i st l) = Listing.seller_id l.
Proof. unfold update_status. by case_bool_decide. Qed.

Lemma update_status_same_but_status (i : Z) (st : string) (l : Listing.t) :
  same_but_status l (update_status i st l).
Proof.
  unfold same_but_status, update_status. case_bool_decide; [done|].
  by rewrite with_status_same.
Qed.

Section Routes.
Context `{Lib}.

Lemma serve_login_required_anonymous req view s :
  current_user s = None →
  serve (login_required req view) s =
    (responded (redirect (login_url "login" req)),
     mkState (db s) [] (uploads s)
       (mkSession (user_id (session s))
          (flashes (session s) ++ ["Please log in to access this page."]))
       (payments s)).
Proof.
  intros Hu. unfold serve, login_required. run. whoami s Hu. reflexivity.
Qed.


Lemma serve_logout req s u :
  current_user s = Some u →
  serve (logout req) s =
    (responded (redirect (url_for "index")),
     mkState (db s) [] (uploads s) (mkSession None (flashes (session s))) (payments s)).
Proof.
  intros Hu. unfold serve, logout, login_required. run. whoami s Hu. reflexivity.
Qed.

(** X2. After [logout] nobody is logged in, whoever called: a logged-in
    caller is redirected home with the session emptied, an anonymous one is
    sent to the login page. The store is untouched. *)
Theorem logout_ends_the_session req s :
  current_user (serve (logout req) s).2 = None
  ∧ db (serve (logout req) s).2 = db s
  ∧ uploads (serve (logout req) s).2 = uploads s
  ∧ payments (serve (logout req) s).2 = payments s
  ∧ (serve (logout req) s).1 =
      match current_user s with
      | Some _ => responded (redirect (url_for "index"))
      | None => responded (redirect (login_url "login" req))
      end.
Proof.
  destruct (current_user s) as [u|] eqn:Hu.
  - by rewrite (serve_logout req s u).
  - unfold logout. rewrite serve_login_required_anonymous by done.
    cbn [fst snd db uploads payments]. by split_and!.
Qed.

(** X3. A login with the name of an account and a password that checks
    against its stored hash redirects home and records that account's key in
    the session, so that it is the current user of the next request; no
    message is shown and the store is untouched. *)
Theorem login_establishes_session req s u a pw :
  method req = POST →
  multidict_get "username" (form req) = Some u →
  User_by_username u (db s) = Some a →
  multidict_get "password" (form req) = Some pw →
  check_password_hash (User.password a) pw = true →
  NoDup (User.id <$> users (db s)) →
  ∃ s' : State,
    serve (login req) s = (responded (redirect (url_for "index")), s')
    ∧ user_id (session s') = Some (User.id a)
    ∧ current_user s' = Some a
    ∧ flashes (session s') = flashes (session s)
    ∧ db s' = db s.
Proof.
  intros Hm Hu Ha Hp Hck Hnd. eexists. split.
  - unfold serve, login, form_get. rewrite Hm, Hu.
    rewrite bool_decide_eq_true_2 by done. run. rewrite Ha, Hp. run.
    rewrite Hck. run. reflexivity.
  - cbn [session user_id flashes db]. split_and!; try done.
    unfold current_user. cbn [session user_id db mbind option_bind].
    apply User_get_unique; [done|]. by apply User_by_username_Some in Ha as [? _].
Qed.

(** X4. The password field is read only once an account was found (the [and]
    of line 79): a login form without a password field is a bad request when
    the user name exists, and the ordinary 'Invalid credentials' page when
    it does not. *)
Theorem login_without_password_tells_accounts_apart req s u :
  method req = POST →
  multidict_get "username" (form req) = Some u →
  multidict_get "password" (form req) = None →
  serve (login req) s =
    match User_by_username u (db s) with
    | Some _ => (aborted 400, set_uow [] s)
    | None =>
        (responded (render_template "login.html" None),
         mkState (db s) [] (uploads s)
           (mkSession (user_id (session s))
              (flashes (session s) ++ ["Invalid credentials"]))
           (payments s))
    end.
Proof.
  intros Hm Hu Hp. unfold serve, login, form_get. rewrite Hm, Hu.
  rewrite bool_decide_eq_true_2 by done. run.
  destruct (User_by_username u (db s)); run; [|done]. rewrite Hp. done.
Qed.


(** The four ways through [buy] for a given caller and listing key: each
    leaves one goal, with the request already run. *)
Ltac buy_cases env req s lid :=
  let u := fresh "u" in
  let l := fresh "l" in
  let Hu := fresh "Hu" in
  let Hl := fresh "Hl" in
  let Hp := fresh "Hp" in
  destruct (current_user s) as [u|] eqn:Hu;
    [|unfold buy; rewrite (serve_login_required_anonymous req _ s Hu)];
    [destruct (Listing_get lid (db s)) as [l|] eqn:Hl;
       [destruct (decide (Listing.seller_id l = User.id u));
          [rewrite (serve_buy_own env req s lid u l) by done
          |destruct (provider env (payment_payload req l lid)
                       (str_timestamp (utcnow env))) as [?|?] eqn:Hp;
             [rewrite (serve_buy_fault env req s lid u l _ Hu Hl) by done
             |rewrite (serve_buy_paid env req s lid u l _ Hu Hl) by done]]
       |unfold serve, buy, login_required, Listing_get_or_404;
        run; whoami s Hu; rewrite Hl; run]
    |].

(** X6. All that [buy] can do. It never touches the uploads or the logged-in
    user. Either it leaves the database and the record of provider calls
    alone, or the caller is logged in, the listing exists and is someone
    else's, and exactly one call went to the provider; then the database is
    written (the listing set to 'pending') only when the provider answered,
    and is as before when the call raised. *)
Theorem buy_effects env req s lid :
  uploads (serve (buy env req lid) s).2 = uploads s
  ∧ user_id (session (serve (buy env req lid) s).2) = user_id (session s)
  ∧ ((payments (serve (buy env req lid) s).2 = payments s
      ∧ db (serve (buy env req lid) s).2 = db s)
     ∨ ∃ (u : User.t) (l : Listing.t),
         current_user s = Some u
         ∧ Listing_get lid (db s) = Some l
         ∧ Listing.seller_id l ≠ User.id u
         ∧ payments (serve (buy env req lid) s).2 =
             (payments s ++
                [(payment_payload req l lid, str_timestamp (utcnow env))])%list
         ∧ match provider env (payment_payload req l lid)
                   (str_timestamp (utcnow env)) with
           | inr pay =>
               (serve (buy env req lid) s).1 =
                 responded (redirect (confirmation_url pay))
               ∧ db (serve (buy env req lid) s).2 = pending_db lid (db s)
           | inl code =>
               (serve (buy env req lid) s).1 = unhandled (ApiError code)
               ∧ db (serve (buy env req lid) s).2 = db s
           end).
Proof.
  buy_cases env req s lid; cbn [fst snd db uploads payments session user_id];
    (split_and!; [done|done|]); try by left.
  - right. exists u, l. rewrite Hp. by split_and!.
  - right. exists u, l. rewrite Hp. by split_and!.
Qed.

(** X20. The idempotence key sent with a payment is made of the clock
    alone: two purchases that read the same time send the provider the same
    key, whoever buys and whatever listing is bought. *)
Theorem buy_idempotence_key_is_the_clock env1 env2 req1 req2 s1 s2 lid1 lid2
    u1 u2 l1 l2 :
  current_user s1 = Some u1 →
  Listing_get lid1 (db s1) = Some l1 →
  Listing.seller_id l1 ≠ User.id u1 →
  current_user s2 = Some u2 →
  Listing_get lid2 (db s2) = Some l2 →
  Listing.seller_id l2 ≠ User.id u2 →
  utcnow env1 = utcnow env2 →
  ∃ key : string,
    payments (serve (buy env1 req1 lid1) s1).2 =
      (payments s1 ++ [(payment_payload req1 l1 lid1, key)])%list
    ∧ payments (serve (buy env2 req2 lid2) s2).2 =
        (payments s2 ++ [(payment_payload req2 l2 lid2, key)])%list.
Proof.
  intros Hu1 Hl1 Hne1 Hu2 Hl2 Hne2 Hnow. exists (str_timestamp (utcnow env1)). split.
  - destruct (provider env1 (payment_payload req1 l1 lid1)
                (str_timestamp (utcnow env1))) as [code|pay] eqn:Hp.
    + by rewrite (serve_buy_fault env1 req1 s1 lid1 u1 l1 code).
    + by rewrite (serve_buy_paid env1 req1 s1 lid1 u1 l1 pay).
  - rewrite Hnow.
    destruct (provider env2 (payment_payload req2 l2 lid2)
                (str_timestamp (utcnow env2))) as [code|pay] eqn:Hp.
    + by rewrite (serve_buy_fault env2 req2 s2 lid2 u2 l2 code).
    + by rewrite (serve_buy_paid env2 req2 s2 lid2 u2 l2 pay).
Qed.

(** X7. Registration and login fit together: with a free user name and a
    free email, [register] appends one account with a fresh key, that email
    and a zero balance, without logging the caller in; provided the hash
    routine accepts the password it hashed, a login with the same name and
    password then succeeds as that account. *)
Theorem register_then_login env req req' s u e pw :
  method req = POST →
  multidict_get "username" (form req) = Some u →
  multidict_get "email" (form req) = Some e →
  multidict_get "password" (form req) = Some pw →
  User_by_username u (db s) = None →
  e ∉ (User.email <$> users (db s)) →
  check_password_hash (generate_password_hash (salt env) pw) pw = true →
  method req' = POST →
  multidict_get "username" (form req') = Some u →
  multidict_get "password" (form req') = Some pw →
  ∃ (s1 s2 : State) (a : User.t),
    serve (register env req) s = (responded (redirect (url_for "login")), s1)
    ∧ user_id (session s1) = user_id (session s)
    ∧ users (db s1) = (users (db s) ++ [a])%list
    ∧ User_by_username u (db s1) = Some a
    ∧ (User.id a ∉ User.id <$> users (db s))
    ∧ User.email a = e
    ∧ User.balance a = 0%float
    ∧ serve (login req') s1 = (responded (redirect (url_for "index")), s2)
    ∧ user_id (session s2) = Some (User.id a)
    ∧ db s2 = db s1.
Proof.
  intros Hm Hu He Hp Hnone Hfree Hck Hm' Hu' Hp'.
  eexists _, _, _. split; [by apply serve_register_created|].
  cbn [session user_id db users]. split_and!; try done.
  - unfold User_by_username. cbn [users]. apply find_snoc_last; [done|].
    by apply bool_decide_eq_true_2.
  - apply next_id_fresh.
  - unfold serve, login, form_get. rewrite Hm', Hu'.
    rewrite bool_decide_eq_true_2 by done. run.
    unfold User_by_username at 1. cbn [users].
    rewrite find_snoc_last; [|done|by apply bool_decide_eq_true_2].
    rewrite Hp'. run.
    unfold User_by_username at 1. cbn [users].
    rewrite find_snoc_last; [|done|by apply bool_decide_eq_true_2].
    cbn [User.password]. rewrite Hck. run. reflexivity.
  - done.
  - done.
Qed.





Lemma serve_profile req s u :
  current_user s = Some u →
  serve (profile req) s =
    (responded (render_template "profile.html"
       (Some (filter_by_seller_id (User.id u) (listings (db s))))),
     set_uow [] s).
Proof.
  intros Hu. unfold serve, profile, login_required. run. whoami s Hu. reflexivity.
Qed.

(** X11. [profile] filters on the seller only: after a purchase of their
    listing was initiated, the seller's profile page still shows it, as
    'pending', while the home page does not. The page holds exactly the
    rows of the table that the caller sells. *)
Theorem bought_listing_stays_on_seller_profile env req req' s lid u l pay a fl :
  current_user s = Some u →
  Listing_get lid (db s) = Some l →
  Listing.seller_id l ≠ User.id u →
  provider env (payment_payload req l lid) (str_timestamp (utcnow env)) = inr pay →
  User_get (Listing.seller_id l) (db s) = Some a →
  ∃ (s' : State) (ls : list Listing.t),
    serve (buy env req lid) s = (responded (redirect (confirmation_url pay)), s')
    ∧ (serve (profile req') (set_session (mkSession (Some (User.id a)) fl) s')).1 =
        responded (render_template "profile.html" (Some ls))
    ∧ Listing.with_status "pending" l ∈ ls
    ∧ (Listing.with_status "pending" l ∉ listActive s')
    ∧ (∀ l', l' ∈ ls ↔ l' ∈ listings (db s') ∧ Listing.seller_id l' = User.id a).
Proof.
  intros Hu Hl Hne Hpay Ha.
  destruct (Listing_get_Some _ _ _ Hl) as [Hin Hid].
  assert (User.id a = Listing.seller_id l) as Hida.
  { unfold User_get in Ha. apply find_some in Ha as [_ Ha].
    by apply bool_decide_eq_true in Ha. }
  eexists _, _. split; [by apply (serve_buy_paid env req s lid u l pay)|].
  rewrite (serve_profile req' _ a).
  2: { unfold current_user. cbn [session user_id db set_session mbind option_bind].
       unfold load_user, User_get, pending_db. cbn [users]. by rewrite Hida. }
  cbn [fst set_session db uploads session payments uow]. split_and!; [done| | |].
  - unfold filter_by_seller_id, pending_db. cbn [listings].
    apply list_elem_of_filter. split; [by cbn; rewrite Hida|].
    apply list_elem_of_fmap. exists l. by rewrite update_status_hit.
  - intros [_ Hst]%elem_of_listActive. discriminate Hst.
  - intros l'. unfold filter_by_seller_id. rewrite list_elem_of_filter. tauto.
Qed.

(** What one request does to its surroundings, route by route. *)
Lemma dispatch_frame env req r s :
  (payments (dispatch env req r s).2 = payments s ∨ ∃ i, r = rule_buy i)
  ∧ (uploads (dispatch env req r s).2 = uploads s
     ∨ (r = rule_add_listing ∧ method req = POST ∧ is_Some (current_user s)))
  ∧ (user_id (session (dispatch env req r s).2) = user_id (session s)
     ∨ r = rule_login ∨ r = rule_logout).
Proof.
  unfold dispatch. case_bool_decide as Hm; [|by auto].
  destruct r; cbn [view_function]; try (split_and!; [by eauto|by eauto|by eauto]).
  - (* register *)
    unfold serve, register, form_get, db_session_commit.
    case_bool_decide; run; [|by auto].
    destruct (multidict_get "username" (form req)); run; [|by auto].
    destruct (multidict_get "email" (form req)); run; [|by auto].
    destruct (multidict_get "password" (form req)); run; [|by auto].
    destruct (User_by_username _ (db s)); run; [by auto|].
    destruct (flush _ _ _) as [[]|d']; run; by auto.
  - (* login *)
    unfold serve, login, form_get.
    case_bool_decide; run; [|by auto].
    destruct (multidict_get "username" (form req)); run; [|by auto].
    destruct (User_by_username _ (db s)); run; [|by auto].
    destruct (multidict_get "password" (form req)); run; [|by auto].
    destruct (check_password_hash _ _); run; by auto.
  - (* logout *)
    destruct (current_user s) as [u|] eqn:Hu.
    + rewrite (serve_logout req s u Hu). by auto.
    + unfold logout. rewrite (serve_login_required_anonymous req _ s Hu). by auto.
  - (* add_listing *)
    unfold serve, add_listing, login_required, form_get, db_session_commit,
      FileStorage_save.
    run. change (current_user _) with (current_user s).
    destruct (current_user s) as [u|]; run; [|by auto].
    case_bool_decide as Hp; run; [|by auto].
    destruct (multidict_get "title" (form req)); run; [|by auto].
    destruct (multidict_get "description" (form req)); run; [|by auto].
    destruct (multidict_get "price" (form req)); run; [|by auto].
    destruct (py_float _); run; [|by auto].
    destruct (multidict_get "game" (form req)); run; [|by auto].
    destruct (multidict_get "image" (files req)) as [img|]; [|by auto].
    destruct (FileStorage_bool img); [|by auto].
    destruct (writable env _); run; [|by auto].
    split_and!; [by left| |by left]. right. split_and!; [done|done|by eexists].
  - (* buy *)
    buy_cases env req s listing_id;
      (split_and!; [right; by eexists|by left|by left]).
  - (* profile *)
    unfold serve, profile, login_required. run.
    change (current_user _) with (current_user s).
    destruct (current_user s); run; by auto.
Qed.

(** A request leaves the database as it is or commits one statement. *)
Lemma dispatch_commit env req r s :
  db (dispatch env req r s).2 = db s
  ∨ (method req = POST
     ∧ ∃ op, commits req s r op
             ∧ apply_op (utcnow env) (db s) op = inr (db (dispatch env req r s).2)).
Proof.
  unfold dispatch. case_bool_decide as Hm; [|by auto].
  destruct r; cbn [view_function]; try by left.
  - (* register *)
    unfold serve, register, form_get, db_session_commit.
    case_bool_decide as Hp; run; [|by auto].
    destruct (multidict_get "username" (form req)) as [u|]; run; [|by auto].
    destruct (multidict_get "email" (form req)) as [e|]; run; [|by auto].
    destruct (multidict_get "password" (form req)) as [pw|]; run; [|by auto].
    destruct (User_by_username _ (db s)); run; [by auto|].
    rewrite flush_one.
    destruct (apply_op _ _ _) as [[]|d'] eqn:Hop; run; try by auto.
    right. split; [done|]. eexists. split; [apply commits_register|exact Hop].
  - (* login *)
    unfold serve, login, form_get.
    case_bool_decide; run; [|by auto].
    destruct (multidict_get "username" (form req)); run; [|by auto].
    destruct (User_by_username _ (db s)); run; [|by auto].
    destruct (multidict_get "password" (form req)); run; [|by auto].
    destruct (check_password_hash _ _); run; by auto.
  - (* logout *)
    left. destruct (current_user s) as [u|] eqn:Hu.
    + by rewrite (serve_logout req s u Hu).
    + unfold logout. by rewrite (serve_login_required_anonymous req _ s Hu).
  - (* add_listing *)
    unfold serve, add_listing, login_required, form_get, db_session_commit,
      FileStorage_save.
    run. change (current_user _) with (current_user s).
    destruct (current_user s) as [u|] eqn:Hu; run; [|by auto].
    case_bool_decide as Hp; run; [|by auto].
    destruct (multidict_get "title" (form req)) as [t|]; run; [|by auto].
    destruct (multidict_get "description" (form req)) as [ds|]; run; [|by auto].
    destruct (multidict_get "price" (form req)) as [ps|]; run; [|by auto].
    destruct (py_float ps) as [p|]; run; [|by auto].
    destruct (multidict_get "game" (form req)) as [g|]; run; [|by auto].
    assert (∀ im, method req = POST ∧ ∃ op, commits req s rule_add_listing op
              ∧ apply_op (utcnow env) (db s) op =
                  inr (mkDb (users (db s))
                         (listings (db s) ++
                            [Listing.mk (next_id (Listing.id <$> listings (db s)))
                               t ds p g im (User.id u) "active" (utcnow env)])))
      as Hnew.
    { intros im. split; [done|]. eexists. split; [by apply commits_add_listing|done]. }
    destruct (multidict_get "image" (files req)) as [img|]; [|right; apply Hnew].
    destruct (FileStorage_bool img); [|right; apply Hnew].
    destruct (writable env _); run; [right; apply Hnew|by left].
  - (* buy *)
    apply list_elem_of_singleton in Hm.
    buy_cases env req s listing_id; try by left.
    right. split; [done|]. eexists. split; [by eapply commits_buy|done].
  - (* profile *)
    left. unfold serve, profile, login_required. run.
    change (current_user _) with (current_user s).
    destruct (current_user s); run; done.
Qed.

(** X12. In every store the application can reach from the empty tables,
    account keys, user names, emails and listing keys are unique. *)
Theorem reachable_keeps_schema_constraints (d : Db) : reachable d → wf_db d.
Proof.
  induction 1 as [|env req r s _ IH].
  - split; cbn; apply NoDup_nil_2.
  - destruct (dispatch_commit env req r s) as [->|(_ & op & _ & Hop)]; [done|].
    by eapply apply_op_wf.
Qed.

(** X13. In every store the application can reach, a listing is 'active' or
    'pending': no route ever writes 'sold'. *)
Theorem reachable_status_is_active_or_pending (d : Db) (l : Listing.t) :
  reachable d → l ∈ listings d →
  status_in_use l ∧ Listing.status l ≠ "sold".
Proof.
  intros Hd Hl. cut (status_in_use l).
  { intros Hs. split; [done|]. by destruct Hs as [-> | ->]. }
  revert l Hl. induction Hd as [|env req r s _ IH]; intros l.
  - by intros ?%elem_of_nil.
  - destruct (dispatch_commit env req r s) as [->|(_ & op & Hc & Hop)]; [by apply IH|].
    destruct Hc as [u e p|u t dd p g im Hu|u l0 i Hu Hl0 Hne]; cbn [apply_op] in Hop.
    + repeat case_bool_decide; try done. injection Hop as <-. apply IH.
    + injection Hop as <-. cbn [listings].
      intros [Hl| ->%list_elem_of_singleton]%elem_of_app; [by apply IH|by left].
    + injection Hop as <-. cbn [listings].
      intros (l1 & -> & Hl1)%list_elem_of_fmap. unfold update_status.
      case_bool_decide; [by right|by apply IH].
Qed.

(** X14. In every store the application can reach, the [seller_id] of a
    listing is the key of an account. *)
Theorem reachable_seller_is_an_account (d : Db) (l : Listing.t) :
  reachable d → l ∈ listings d → seller_exists d l.
Proof.
  intros Hd. revert l. unfold seller_exists.
  induction Hd as [|env req r s _ IH]; intros l.
  - by intros ?%elem_of_nil.
  - destruct (dispatch_commit env req r s) as [->|(_ & op & Hc & Hop)]; [by apply IH|].
    destruct Hc as [u e p|u t dd p g im Hu|u l0 i Hu Hl0 Hne]; cbn [apply_op] in Hop.
    + repeat case_bool_decide; try done. injection Hop as <-. cbn [users listings].
      intros Hl. rewrite fmap_app, elem_of_app. left. by apply IH.
    + injection Hop as <-. cbn [users listings].
      intros [Hl| ->%list_elem_of_singleton]%elem_of_app; [by apply IH|].
      cbn [Listing.seller_id]. apply list_elem_of_fmap. exists u.
      by apply current_user_Some in Hu as [? _].
    + injection Hop as <-. cbn [users listings].
      intros (l1 & -> & Hl1)%list_elem_of_fmap.
      rewrite update_status_seller_id. by apply IH.
Qed.

(** X15. In every store the application can reach, every account's balance
    is the column default: no route credits or debits it. *)
Theorem reachable_balance_is_never_touched (d : Db) (u : User.t) :
  reachable d → u ∈ users d → User.balance u = 0%float.
Proof.
  intros Hd. revert u. induction Hd as [|env req r s _ IH]; intros a.
  - by intros ?%elem_of_nil.
  - destruct (dispatch_commit env req r s) as [->|(_ & op & Hc & Hop)]; [by apply IH|].
    destruct Hc as [u e p|u t dd p g im Hu|u l0 i Hu Hl0 Hne]; cbn [apply_op] in Hop.
    + repeat case_bool_decide; try done. injection Hop as <-. cbn [users].
      intros [Ha| ->%list_elem_of_singleton]%elem_of_app; [by apply IH|done].
    + injection Hop as <-. apply IH.
    + injection Hop as <-. apply IH.
Qed.

(** X16. A request that is not a POST changes neither the database nor the
    uploads nor the record of provider calls, on any route. *)
Theorem safe_methods_change_nothing env req r s :
  method req ≠ POST →
  db (dispatch env req r s).2 = db s
  ∧ uploads (dispatch env req r s).2 = uploads s
  ∧ payments (dispatch env req r s).2 = payments s.
Proof.
  intros Hm.
  destruct (dispatch_commit env req r s) as [Hdb|[? _]]; [|done].
  destruct (dispatch_frame env req r s) as ([Hpay|[i ->]] & [Hup|(_ & ? & _)] & _);
    try done.
  unfold dispatch. rewrite bool_decide_eq_false_2; [done|].
  by intros ?%list_elem_of_singleton.
Qed.

(** X17. Without a logged-in user, the only route that can change the
    database is [register]; the uploads and the provider are out of reach
    altogether. *)
Theorem anonymous_requests_only_register env req r s :
  current_user s = None →
  r ≠ rule_register →
  db (dispatch env req r s).2 = db s
  ∧ uploads (dispatch env req r s).2 = uploads s
  ∧ payments (dispatch env req r s).2 = payments s.
Proof.
  intros Hu Hr. split_and!.
  - destruct (dispatch_commit env req r s) as [Hdb|(_ & op & Hc & _)]; [done|].
    destruct Hc; congruence.
  - destruct (dispatch_frame env req r s) as (_ & [Hup|(_ & _ & [u Hs])] & _);
      [done|congruence].
  - destruct (dispatch_frame env req r s) as ([Hpay|[i ->]] & _); [done|].
    unfold dispatch. case_bool_decide; [|done]. cbn [view_function]. unfold buy.
    by rewrite serve_login_required_anonymous.
Qed.

(** X18. No request deletes or alters an account, and none deletes a
    listing or changes anything of it but the status: the accounts before
    are a prefix of the accounts after, so are the listing keys, and every
    listing is still there, up to its status. *)
Theorem rows_are_never_deleted env req r s :
  users (db s) `prefix_of` users (db (dispatch env req r s).2)
  ∧ (Listing.id <$> listings (db s)) `prefix_of`
      (Listing.id <$> listings (db (dispatch env req r s).2))
  ∧ (∀ l, l ∈ listings (db s) →
          ∃ l', l' ∈ listings (db (dispatch env req r s).2) ∧ same_but_status l l').
Proof.
  destruct (dispatch_commit env req r s) as [->|(_ & op & Hc & Hop)].
  { split_and!; [done|done|]. intros l Hl. exists l. split; [done|].
    unfold same_but_status. by rewrite with_status_same. }
  destruct Hc as [u e p|u t dd p g im Hu|u l0 i Hu Hl0 Hne]; cbn [apply_op] in Hop.
  - repeat case_bool_decide; try done. injection Hop as <-. cbn [users listings].
    split_and!; [by apply prefix_app_r|done|].
    intros l Hl. exists l. split; [done|].
    unfold same_but_status. by rewrite with_status_same.
  - injection Hop as <-. cbn [users listings]. rewrite fmap_app.
    split_and!; [done|by apply prefix_app_r|].
    intros l Hl. exists l. split; [apply elem_of_app; by left|].
    unfold same_but_status. by rewrite with_status_same.
  - injection Hop as <-. cbn [users listings]. rewrite update_status_ids.
    split_and!; [done|done|].
    intros l Hl. exists (update_status i "pending" l).
    split; [apply list_elem_of_fmap; by exists l|apply update_status_same_but_status].
Qed.

End Routes.

(** * The properties at work on the sample store *)

#[local] Existing Instance Sample.lib.

Lemma buy_marks_pending_and_unlists_witness :
  current_user (Sample.state "active" (Some 2)) = Some Sample.bob
  ∧ Listing_get 1 (db (Sample.state "active" (Some 2))) = Some (Sample.sword "active")
  ∧ Listing.seller_id (Sample.sword "active") ≠ User.id Sample.bob
  ∧ provider Sample.env_ok
      (payment_payload (Sample.post []) (Sample.sword "active") 1)
      (str_timestamp (utcnow Sample.env_ok)) = inr Sample.checkout
  ∧ ∃ s' : State,
      serve (buy Sample.env_ok (Sample.post []) 1) (Sample.state "active" (Some 2)) =
        (responded (redirect "https://pay.example/checkout/1"), s')
      ∧ Listing_get 1 (db s') = Some (Sample.sword "pending")
      ∧ (∀ l', l' ∈ listActive s' → Listing.id l' ≠ 1).
Proof.
  split_and!; [reflexivity | reflexivity | discriminate | reflexivity |].
  destruct (buy_marks_pending_and_unlists Sample.env_ok (Sample.post [])
              (Sample.state "active" (Some 2)) 1 Sample.bob
              (Sample.sword "active") Sample.checkout)
    as (s' & Hs & Hget & _ & Hact & _);
    [reflexivity | reflexivity | discriminate | reflexivity |].
  exists s'. split_and!; [exact Hs | exact Hget | exact Hact].
Defined.

(** C2 as stated fails: alice's active listing, bob buying, the provider
    down. The fault reaches the server, and the listing is 'active', not
    'pending', and still on the home page. *)
Lemma buy_provider_fault_not_pending :
  (serve (buy Sample.env_down (Sample.post []) 1)
         (Sample.state "active" (Some 2))).1 = unhandled (ApiError "503")
  ∧ Listing.status <$>
      Listing_get 1 (db (serve (buy Sample.env_down (Sample.post []) 1)
                               (Sample.state "active" (Some 2))).2) = Some "active"
  ∧ Listing.status <$>
      Listing_get 1 (db (serve (buy Sample.env_down (Sample.post []) 1)
                               (Sample.state "active" (Some 2))).2) ≠ Some "pending"
  ∧ Listing.id <$>
      listActive (serve (buy Sample.env_down (Sample.post []) 1)
                        (Sample.state "active" (Some 2))).2 = [2; 1].
Proof. split_and!; [reflexivity | reflexivity | discriminate | reflexivity]. Qed.

Lemma buy_provider_fault_keeps_status_witness :
  current_user (Sample.state "active" (Some 2)) = Some Sample.bob
  ∧ Listing_get 1 (db (Sample.state "active" (Some 2))) = Some (Sample.sword "active")
  ∧ Listing.seller_id (Sample.sword "active") ≠ User.id Sample.bob
  ∧ provider Sample.env_down
      (payment_payload (Sample.post []) (Sample.sword "active") 1)
      (str_timestamp (utcnow Sample.env_down)) = inl "503"
  ∧ ∃ s' : State,
      serve (buy Sample.env_down (Sample.post []) 1) (Sample.state "active" (Some 2)) =
        (unhandled (ApiError "503"), s')
      ∧ db s' = db (Sample.state "active" (Some 2))
      ∧ Listing_get 1 (db s') = Some (Sample.sword "active").
Proof.
  split_and!; [reflexivity | reflexivity | discriminate | reflexivity |].
  destruct (buy_provider_fault_keeps_status Sample.env_down (Sample.post [])
              (Sample.state "active" (Some 2)) 1 Sample.bob
              (Sample.sword "active") "503")
    as (s' & Hs & Hdb & Hget & _);
    [reflexivity | reflexivity | discriminate | reflexivity |].
  exists s'. split_and!; [exact Hs | exact Hdb | exact Hget].
Defined.

(** C3 as stated fails: the listing is already 'pending' (bob's purchase is
    under way) and carol, a second buyer, posts a purchase. It succeeds: the
    provider is called and carol is sent to the checkout page. *)
Lemma buy_pending_by_second_buyer_succeeds :
  Listing.status <$> Listing_get 1 (db (Sample.state "pending" (Some 3))) = Some "pending"
  ∧ current_user (Sample.state "pending" (Some 3)) = Some Sample.carol
  ∧ (serve (buy Sample.env_ok (Sample.post []) 1)
           (Sample.state "pending" (Some 3))).1 =
      responded (redirect "https://pay.example/checkout/1")
  ∧ metadata_listing_id ∘ fst <$>
      payments (serve (buy Sample.env_ok (Sample.post []) 1)
                      (Sample.state "pending" (Some 3))).2 = [1].
Proof. split_and!; reflexivity. Qed.

Lemma buy_pending_listing_goes_through_witness :
  current_user (Sample.state "pending" (Some 3)) = Some Sample.carol
  ∧ Listing_get 1 (db (Sample.state "pending" (Some 3))) = Some (Sample.sword "pending")
  ∧ Listing.status (Sample.sword "pending") = "pending"
  ∧ Listing.seller_id (Sample.sword "pending") ≠ User.id Sample.carol
  ∧ provider Sample.env_ok
      (payment_payload (Sample.post []) (Sample.sword "pending") 1)
      (str_timestamp (utcnow Sample.env_ok)) = inr Sample.checkout
  ∧ ∃ s' : State,
      serve (buy Sample.env_ok (Sample.post []) 1) (Sample.state "pending" (Some 3)) =
        (responded (redirect "https://pay.example/checkout/1"), s')
      ∧ Listing_get 1 (db s') = Some (Sample.sword "pending").
Proof.
  split_and!; [reflexivity | reflexivity | reflexivity | discriminate | reflexivity |].
  destruct (buy_pending_listing_goes_through Sample.env_ok (Sample.post [])
              (Sample.state "pending" (Some 3)) 1 Sample.carol
              (Sample.sword "pending") Sample.checkout)
    as (s' & Hs & _ & Hget);
    [reflexivity | reflexivity | reflexivity | discriminate | reflexivity |].
  exists s'. split; [exact Hs | exact Hget].
Defined.

Lemma buy_own_listing_refused_witness :
  current_user (Sample.state "active" (Some 1)) = Some Sample.alice
  ∧ Listing_get 1 (db (Sample.state "active" (Some 1))) = Some (Sample.sword "active")
  ∧ Listing.status (Sample.sword "active") = "active"
  ∧ Listing.seller_id (Sample.sword "active") = User.id Sample.alice
  ∧ ∃ s' : State,
      serve (buy Sample.env_ok (Sample.post []) 1) (Sample.state "active" (Some 1)) =
        (responded (redirect "/"), s')
      ∧ payments s' = []
      ∧ Listing.status <$> Listing_get 1 (db s') = Some "active".
Proof.
  split_and!; [reflexivity | reflexivity | reflexivity | reflexivity |].
  destruct (buy_own_listing_refused Sample.env_ok (Sample.post [])
              (Sample.state "active" (Some 1)) 1 Sample.alice (Sample.sword "active"))
    as (s' & Hs & _ & Hpay & _ & _ & Hst);
    [reflexivity | reflexivity | reflexivity | reflexivity |].
  exists s'. split_and!; [exact Hs | exact Hpay | exact Hst].
Defined.

(** C5 as stated fails: dave registers with alice's email. The request ends
    in an integrity error and the accounts are the three there were. *)
Lemma register_duplicate_email_no_second_row :
  (serve (register Sample.env_ok
            (Sample.post [("username", "dave"); ("email", "alice@example.org");
                          ("password", "pw")]))
         (Sample.state "active" None)).1 = unhandled IntegrityError
  ∧ User.username <$>
      users (db (serve (register Sample.env_ok
                          (Sample.post [("username", "dave");
                                        ("email", "alice@example.org");
                                        ("password", "pw")]))
                       (Sample.state "active" None)).2) = ["alice"; "bob"; "carol"]
  ∧ length (filter (λ r, User.email r = "alice@example.org")
      (users (db (serve (register Sample.env_ok
                          (Sample.post [("username", "dave");
                                        ("email", "alice@example.org");
                                        ("password", "pw")]))
                       (Sample.state "active" None)).2))) = 1%nat.
Proof. split_and!; reflexivity. Qed.

Lemma register_duplicate_email_rejected_witness :
  method (Sample.post [("username", "dave"); ("email", "alice@example.org");
                       ("password", "pw")]) = POST
  ∧ User_by_username "dave" (db (Sample.state "active" None)) = None
  ∧ Sample.alice ∈ users (db (Sample.state "active" None))
  ∧ User.email Sample.alice = "alice@example.org"
  ∧ ∃ s' : State,
      serve (register Sample.env_ok
               (Sample.post [("username", "dave"); ("email", "alice@example.org");
                             ("password", "pw")]))
            (Sample.state "active" None) = (unhandled IntegrityError, s')
      ∧ users (db s') = users (db (Sample.state "active" None)).
Proof.
  split_and!; [reflexivity | reflexivity | by left | reflexivity |].
  destruct (register_duplicate_email_rejected Sample.env_ok
              (Sample.post [("username", "dave"); ("email", "alice@example.org");
                            ("password", "pw")])
              (Sample.state "active" None) "dave" "alice@example.org" "pw" Sample.alice)
    as (s' & Hs & _ & Husers & _);
    [reflexivity | reflexivity | reflexivity | reflexivity | reflexivity
    | by left | reflexivity |].
  exists s'. split; [exact Hs | exact Husers].
Defined.

Lemma register_duplicate_username_rejected_witness :
  method (Sample.post [("username", "alice"); ("email", "other@example.org");
                       ("password", "pw")]) = POST
  ∧ multidict_get "username"
      (form (Sample.post [("username", "alice"); ("email", "other@example.org");
                          ("password", "pw")])) = Some "alice"
  ∧ Sample.alice ∈ users (db (Sample.state "active" None))
  ∧ User.username Sample.alice = "alice"
  ∧ ∃ (out : Outcome) (s' : State),
      serve (register Sample.env_ok
               (Sample.post [("username", "alice"); ("email", "other@example.org");
                             ("password", "pw")]))
            (Sample.state "active" None) = (out, s')
      ∧ db s' = db (Sample.state "active" None)
      ∧ Sample.alice ∈ users (db s')
      ∧ out = responded (redirect "/register").
Proof.
  split_and!; [reflexivity | reflexivity | by left | reflexivity |].
  destruct (register_duplicate_username_rejected Sample.env_ok
              (Sample.post [("username", "alice"); ("email", "other@example.org");
                            ("password", "pw")])
              (Sample.state "active" None) "alice" Sample.alice)
    as (out & s' & Hs & Hdb & Hin & _ & _ & _ & Hout);
    [reflexivity | reflexivity | by left | reflexivity |].
  exists out, s'. split_and!; [exact Hs | exact Hdb | exact Hin |].
  apply Hout; by eexists.
Defined.

Lemma login_failures_look_alike_witness :
  User_by_username "alice" (db (Sample.state "active" None)) = Some Sample.alice
  ∧ check_password_hash (User.password Sample.alice) "guess" = false
  ∧ User_by_username "zed" (db (Sample.state "active" None)) = None
  ∧ (serve (login (Sample.post [("username", "alice"); ("password", "guess")]))
           (Sample.state "active" None)).1 =
      responded (render_template "login.html" None)
  ∧ serve (login (Sample.post [("username", "alice"); ("password", "guess")]))
          (Sample.state "active" None) =
    serve (login (Sample.post [("username", "zed"); ("password", "guess")]))
          (Sample.state "active" None).
Proof.
  destruct (login_failures_look_alike (H := Sample.lib)
              (Sample.post [("username", "alice"); ("password", "guess")])
              (Sample.post [("username", "zed"); ("password", "guess")])
              (Sample.state "active" None) (Sample.state "active" None)
              "alice" Sample.alice "guess" "zed"
              eq_refl eq_refl eq_refl eq_refl eq_refl eq_refl eq_refl eq_refl)
    as (Hout & _ & _ & _ & _ & _ & _ & _ & Hsame).
  split_and!;
    [reflexivity | reflexivity | reflexivity | exact Hout | exact (Hsame eq_refl)].
Defined.

Lemma add_listing_price_unvalidated_witness :
  current_user (Sample.state "active" (Some 2)) = Some Sample.bob
  ∧ py_float "cheap" = None
  ∧ py_float "-5" = Some (-5)%float
  ∧ (∃ s' : State,
       serve (add_listing Sample.env_ok
                (Sample.post [("title", "Axe"); ("description", "Heavy");
                              ("price", "cheap"); ("game", "X")]))
             (Sample.state "active" (Some 2)) = (unhandled ValueError, s')
       ∧ listings (db s') = listings (db (Sample.state "active" (Some 2))))
  ∧ (∃ (s' : State) (row : Listing.t),
       serve (add_listing Sample.env_ok
                (Sample.post [("title", "Axe"); ("description", "Heavy");
                              ("price", "-5"); ("game", "X")]))
             (Sample.state "active" (Some 2)) = (responded (redirect "/"), s')
       ∧ listings (db s') =
           (listings (db (Sample.state "active" (Some 2))) ++ [row])%list
       ∧ PrimFloat.ltb (Listing.price row) 0%float = true).
Proof.
  split_and!; [reflexivity | reflexivity | reflexivity | |].
  - destruct (add_listing_price_unvalidated Sample.env_ok
                (Sample.post [("title", "Axe"); ("description", "Heavy");
                              ("price", "cheap"); ("game", "X")])
                (Sample.state "active" (Some 2)) Sample.bob "Axe" "Heavy" "cheap")
      as [Hbad _]; try reflexivity.
    destruct (Hbad eq_refl) as (s' & Hs & _ & Hls & _).
    exists s'. split; [exact Hs | exact Hls].
  - destruct (add_listing_price_unvalidated Sample.env_ok
                (Sample.post [("title", "Axe"); ("description", "Heavy");
                              ("price", "-5"); ("game", "X")])
                (Sample.state "active" (Some 2)) Sample.bob "Axe" "Heavy" "-5")
      as [_ Hneg]; try reflexivity.
    destruct (Hneg (-5)%float "X" eq_refl eq_refl eq_refl) as (s' & row & Hs & Hls & _ & _ & Hlt & _).
    + intros f Hf. discriminate Hf.
    + exists s', row. split_and!; [exact Hs | exact Hls | exact Hlt].
Defined.

(** ** The further properties at work *)

Ltac reach_listed :=
  unfold Scenario.listed; apply reachable_dispatch;
  unfold Scenario.logged_in; apply reachable_dispatch;
  unfold Scenario.registered; apply reachable_dispatch;
  apply reachable_create_all.


Lemma login_establishes_session_witness :
  User_by_username "alice" (db (Sample.state "active" None)) = Some Sample.alice
  ∧ check_password_hash (User.password Sample.alice) "wonderland" = true
  ∧ NoDup (User.id <$> users (db (Sample.state "active" None)))
  ∧ ∃ s' : State,
      serve (login (Sample.post [("username", "alice"); ("password", "wonderland")]))
            (Sample.state "active" None) = (responded (redirect "/"), s')
      ∧ current_user s' = Some Sample.alice.
Proof.
  assert (NoDup (User.id <$> users (db (Sample.state "active" None)))) as Hnd.
  { compute_done. }
  split_and!; [reflexivity | reflexivity | exact Hnd |].
  destruct (login_establishes_session (H := Sample.lib)
              (Sample.post [("username", "alice"); ("password", "wonderland")])
              (Sample.state "active" None) "alice" Sample.alice "wonderland"
              eq_refl eq_refl eq_refl eq_refl eq_refl Hnd)
    as (s' & Hs & _ & Hcur & _).
  exists s'. split; [exact Hs | exact Hcur].
Defined.

Lemma login_without_password_tells_accounts_apart_witness :
  multidict_get "password" (form (Sample.post [("username", "alice")])) = None
  ∧ (serve (login (Sample.post [("username", "alice")]))
           (Sample.state "active" None)).1 = aborted 400
  ∧ (serve (login (Sample.post [("username", "zed")]))
           (Sample.state "active" None)).1 =
      responded (render_template "login.html" None).
Proof.
  split_and!; [reflexivity | |].
  - rewrite (login_without_password_tells_accounts_apart (H := Sample.lib)
               (Sample.post [("username", "alice")]) (Sample.state "active" None)
               "alice" eq_refl eq_refl eq_refl).
    reflexivity.
  - rewrite (login_without_password_tells_accounts_apart (H := Sample.lib)
               (Sample.post [("username", "zed")]) (Sample.state "active" None)
               "zed" eq_refl eq_refl eq_refl).
    reflexivity.
Defined.


Lemma buy_idempotence_key_is_the_clock_witness :
  current_user (Sample.state "active" (Some 2)) = Some Sample.bob
  ∧ current_user (Sample.state "active" (Some 3)) = Some Sample.carol
  ∧ Listing_get 2 (db (Sample.state "active" (Some 3))) = Some Sample.shield
  ∧ ∃ key : string,
      payments (serve (buy Sample.env_ok (Sample.post []) 1)
                      (Sample.state "active" (Some 2))).2 =
        [(payment_payload (Sample.post []) (Sample.sword "active") 1, key)]
      ∧ payments (serve (buy Sample.env_down (Sample.post []) 2)
                        (Sample.state "active" (Some 3))).2 =
          [(payment_payload (Sample.post []) Sample.shield 2, key)].
Proof.
  split_and!; [reflexivity | reflexivity | reflexivity |].
  apply (buy_idempotence_key_is_the_clock (H := Sample.lib)
           Sample.env_ok Sample.env_down (Sample.post []) (Sample.post [])
           (Sample.state "active" (Some 2)) (Sample.state "active" (Some 3)) 1 2
           Sample.bob Sample.carol (Sample.sword "active") Sample.shield);
    [reflexivity | reflexivity | discriminate
    | reflexivity | reflexivity | discriminate | reflexivity].
Defined.

Lemma register_then_login_witness :
  User_by_username "alice" (db Scenario.start) = None
  ∧ check_password_hash (generate_password_hash (salt Sample.env_ok) "wonderland")
      "wonderland" = true
  ∧ ∃ (s1 s2 : State) (a : User.t),
      serve (register Sample.env_ok
               (Sample.post [("username", "alice"); ("email", "alice@example.org");
                             ("password", "wonderland")]))
            Scenario.start = (responded (redirect "/login"), s1)
      ∧ users (db s1) = [a]
      ∧ serve (login (Sample.post [("username", "alice"); ("password", "wonderland")]))
              s1 = (responded (redirect "/"), s2)
      ∧ user_id (session s2) = Some (User.id a).
Proof.
  split_and!; [reflexivity | reflexivity |].
  destruct (register_then_login (H := Sample.lib) Sample.env_ok
              (Sample.post [("username", "alice"); ("email", "alice@example.org");
                            ("password", "wonderland")])
              (Sample.post [("username", "alice"); ("password", "wonderland")])
              Scenario.start "alice" "alice@example.org" "wonderland")
    as (s1 & s2 & a & Hreg & _ & Husers & _ & _ & _ & _ & Hlog & Hid & _);
    [reflexivity | reflexivity | reflexivity | reflexivity | reflexivity
    | apply not_elem_of_nil | reflexivity | reflexivity | reflexivity | reflexivity |].
  exists s1, s2, a. split_and!; [exact Hreg | exact Husers | exact Hlog | exact Hid].
Defined.




Lemma bought_listing_stays_on_seller_profile_witness :
  current_user (Sample.state "active" (Some 2)) = Some Sample.bob
  ∧ Listing_get 1 (db (Sample.state "active" (Some 2))) = Some (Sample.sword "active")
  ∧ User_get (Listing.seller_id (Sample.sword "active"))
      (db (Sample.state "active" (Some 2))) = Some Sample.alice
  ∧ ∃ (s' : State) (ls : list Listing.t),
      serve (buy Sample.env_ok (Sample.post []) 1) (Sample.state "active" (Some 2)) =
        (responded (redirect "https://pay.example/checkout/1"), s')
      ∧ (serve (profile Scenario.get)
               (set_session (mkSession (Some 1) []) s')).1 =
          responded (render_template "profile.html" (Some ls))
      ∧ Sample.sword "pending" ∈ ls.
Proof.
  split_and!; [reflexivity | reflexivity | reflexivity |].
  destruct (bought_listing_stays_on_seller_profile (H := Sample.lib) Sample.env_ok
              (Sample.post []) Scenario.get (Sample.state "active" (Some 2)) 1
              Sample.bob (Sample.sword "active") Sample.checkout Sample.alice [])
    as (s' & ls & Hs & Hprof & Hin & _);
    [reflexivity | reflexivity | discriminate | reflexivity | reflexivity |].
  exists s', ls. split_and!; [exact Hs | exact Hprof | exact Hin].
Defined.

Lemma reachable_keeps_schema_constraints_witness :
  reachable (db Scenario.listed) ∧ wf_db (db Scenario.listed).
Proof.
  assert (reachable (db Scenario.listed)) as Hr by reach_listed.
  split; [exact Hr|].
  exact (reachable_keeps_schema_constraints (H := Sample.lib) _ Hr).
Defined.

Lemma reachable_status_is_active_or_pending_witness :
  reachable (db Scenario.listed)
  ∧ Scenario.axe ∈ listings (db Scenario.listed)
  ∧ status_in_use Scenario.axe
  ∧ Listing.status Scenario.axe ≠ "sold".
Proof.
  assert (reachable (db Scenario.listed)) as Hr by reach_listed.
  assert (Scenario.axe ∈ listings (db Scenario.listed)) as Hin.
  { apply list_elem_of_In. vm_compute. left. reflexivity. }
  split_and!; [exact Hr | exact Hin | |];
    apply (reachable_status_is_active_or_pending (H := Sample.lib) _ _ Hr Hin).
Defined.

Lemma reachable_seller_is_an_account_witness :
  reachable (db Scenario.listed)
  ∧ Scenario.axe ∈ listings (db Scenario.listed)
  ∧ seller_exists (db Scenario.listed) Scenario.axe.
Proof.
  assert (reachable (db Scenario.listed)) as Hr by reach_listed.
  assert (Scenario.axe ∈ listings (db Scenario.listed)) as Hin.
  { apply list_elem_of_In. vm_compute. left. reflexivity. }
  split_and!; [exact Hr | exact Hin |].
  exact (reachable_seller_is_an_account (H := Sample.lib) _ _ Hr Hin).
Defined.

Lemma reachable_balance_is_never_touched_witness :
  reachable (db Scenario.listed)
  ∧ Scenario.alice ∈ users (db Scenario.listed)
  ∧ User.balance Scenario.alice = 0%float.
Proof.
  assert (reachable (db Scenario.listed)) as Hr by reach_listed.
  assert (Scenario.alice ∈ users (db Scenario.listed)) as Hin.
  { apply list_elem_of_In. vm_compute. left. reflexivity. }
  split_and!; [exact Hr | exact Hin |].
  exact (reachable_balance_is_never_touched (H := Sample.lib) _ _ Hr Hin).
Defined.

Lemma safe_methods_change_nothing_witness :
  method Scenario.get ≠ POST
  ∧ db (dispatch Sample.env_ok Scenario.get rule_add_listing
          (Sample.state "active" (Some 2))).2 = db (Sample.state "active" (Some 2))
  ∧ uploads (dispatch Sample.env_ok Scenario.get rule_add_listing
               (Sample.state "active" (Some 2))).2 = ∅
  ∧ payments (dispatch Sample.env_ok Scenario.get rule_add_listing
                (Sample.state "active" (Some 2))).2 = [].
Proof.
  split; [discriminate|].
  apply (safe_methods_change_nothing (H := Sample.lib) Sample.env_ok Scenario.get
           rule_add_listing (Sample.state "active" (Some 2))).
  discriminate.
Defined.

Lemma anonymous_requests_only_register_witness :
  current_user (Sample.state "active" None) = None
  ∧ rule_buy 1 ≠ rule_register
  ∧ db (dispatch Sample.env_ok (Sample.post []) (rule_buy 1)
          (Sample.state "active" None)).2 = db (Sample.state "active" None)
  ∧ uploads (dispatch Sample.env_ok (Sample.post []) (rule_buy 1)
               (Sample.state "active" None)).2 = ∅
  ∧ payments (dispatch Sample.env_ok (Sample.post []) (rule_buy 1)
                (Sample.state "active" None)).2 = [].
Proof.
  split_and!; [reflexivity | discriminate | | |];
    apply (anonymous_requests_only_register (H := Sample.lib) Sample.env_ok
             (Sample.post []) (rule_buy 1) (Sample.state "active" None));
    (reflexivity || discriminate).
Defined.
